(** * Transaction canonicalisation of the layer-2 signing core

    A shallow embedding of [types/txtypes/transfer.go] and
    [types/txtypes/withdraw.go]: the per-type validators, the canonical
    preimage builders that feed the sponge hash, and the L1 signature body
    of a transfer.

    Go's fixed-width integers are integers of [Z] together with the
    conversions that wrap them; [nil] errors are [None]. *)

From Stdlib Require Import ZArith List String Ascii Bool Lia.
From Stdlib Require Import Strings.Byte.
#[local] Set Warnings "-stdlib-vector".
From Stdlib Require Vector.
Import ListNotations.

Local Open Scope Z_scope.

(** ** Go's integer types *)

Module GoInt.

(** Value ranges of the unsigned and signed [w]-bit types. *)
Definition is_uint (w x : Z) : Prop := 0 <= x < 2 ^ w.
Definition is_int (w x : Z) : Prop := - 2 ^ (w - 1) <= x < 2 ^ (w - 1).

(** The conversions [uint32(x)] and [uint64(x)]: the two's complement bit
    pattern of [x], cut to the width of the target. *)
Definition uint32 (x : Z) : Z := x mod 2 ^ 32.
Definition uint64 (x : Z) : Z := x mod 2 ^ 64.

(** [v & 0xFFFFFFFF] and [v >> 32] on a [uint64]. *)
Definition and_mask32 (v : Z) : Z := Z.land v 0xFFFFFFFF.
Definition shr32 (v : Z) : Z := Z.shiftr v 32.

(** [lo + (hi << 32)], computed in [uint64]. *)
Definition join32 (lo hi : Z) : Z := uint64 (lo + uint64 (Z.shiftl hi 32)).

End GoInt.

(** ** Errors returned by the validators *)

Inductive error : Set :=
| ErrFromAccountIndexTooLow
| ErrFromAccountIndexTooHigh
| ErrApiKeyIndexTooLow
| ErrApiKeyIndexTooHigh
| ErrToAccountIndexTooLow
| ErrToAccountIndexTooHigh
| ErrAssetIndexTooLow
| ErrAssetIndexTooHigh
| ErrRouteTypeInvalid
| ErrTransferAmountTooLow
| ErrTransferAmountTooHigh
| ErrTransferFeeNegative
| ErrTransferFeeTooHigh
| ErrWithdrawalAmountTooLow
| ErrWithdrawalAmountTooHigh
| ErrNonceTooLow
| ErrExpiredAtInvalid.

(** [if cond { return err }] followed by the rest of the function body. *)
Notation "'If' c 'Return' e ;; k" := (if c then Some e else k)
  (at level 10, c at level 100, e at level 0, k at level 200,
   format "'[v' 'If'  c  'Return'  e ;; '/' k ']'").

(** ** What the two files take from the rest of the package *)

(** The package-level constants the validators and builders refer to.  Their
    declarations are not part of the two files; every result below holds for
    whatever values they have. *)
Class TxConstants : Set := {
  MinAccountIndex : Z;
  MaxAccountIndex : Z;
  MinApiKeyIndex : Z;
  MaxApiKeyIndex : Z;
  MinAssetIndex : Z;
  MaxAssetIndex : Z;
  AssetRouteType_Perps : Z;
  AssetRouteType_Spot : Z;
  MaxTransferAmount : Z;
  MaxWithdrawalAmount : Z;
  MinNonce : Z;
  MaxTimestamp : Z;
  TxTypeL2Transfer : Z;
  TxTypeL2Withdraw : Z
}.

(** The field library [g]: elements of the Goldilocks field and the three
    injections the builders use. *)
Class Goldilocks : Type := {
  Element : Type;
  FromUint32 : Z -> Element;
  FromInt64 : Z -> Element;
  FromUint64 : Z -> Element
}.

(** The hash library [p2]: the sponge over field elements and the byte
    rendering of its output. *)
Class Poseidon2 {field : Goldilocks} : Type := {
  HashOut : Type;
  HashToQuinticExtension : list Element -> HashOut;
  ToLittleEndianBytes : HashOut -> list byte
}.

(** The formatting helpers of the L1 body: [fmt.Sprintf], the package's
    [getHex10FromUint64] and the template of a transfer. *)
Class L1Format : Set := {
  Sprintf : string -> list string -> string;
  getHex10FromUint64 : Z -> string;
  TemplateTransfer : string
}.

(** [elems = append(elems, x)] *)
Definition append {A : Type} (elems : list A) (x : A) : list A := elems ++ [x].

(** [make([]T, 0, cap)]: the capacity is not observable. *)
Definition make {A : Type} (len cap : nat) : list A := [].

(** ** The two standard-library functions the L1 body relies on *)

(** [encoding/hex]: two characters of [hextable] per byte, high nibble
    first. *)
Module Hex.

Definition hextable : string := "0123456789abcdef".

(** [hextable[i]] *)
Definition hextable_at (i : N) : ascii :=
  match String.get (N.to_nat i) hextable with
  | Some c => c
  | None => Ascii.zero
  end.

Fixpoint Encode (src : list byte) : string :=
  match src with
  | [] => EmptyString
  | v :: src' =>
      String (hextable_at (N.shiftr (Byte.to_N v) 4))
        (String (hextable_at (N.land (Byte.to_N v) 15)) (Encode src'))
  end.

Definition EncodeToString (src : list byte) : string := Encode src.

(** The characters [0-9a-f]. *)
Definition is_lower_hex (c : ascii) : bool :=
  let n := N_of_ascii c in
  ((48 <=? n) && (n <=? 57) || (97 <=? n) && (n <=? 102))%N.

Fixpoint all_lower_hex (s : string) : bool :=
  match s with
  | EmptyString => true
  | String c s' => is_lower_hex c && all_lower_hex s'
  end.

End Hex.

(** [strings]: [Index], [Count] and [Replace] for a non-empty [old]
    (the branch of [Replace] for an empty [old] is never taken here). *)
Module Strings.

(** Byte offset of the first occurrence of [substr] in [s], or [-1]. *)
Fixpoint Index (s substr : string) : Z :=
  if String.prefix substr s then 0
  else match s with
       | EmptyString => -1
       | String _ s' =>
           let j := Index s' substr in
           if j <? 0 then -1 else j + 1
       end.

(** Occurrences counted without overlap: after a match the scan resumes
    behind it, [skip] characters further. *)
Fixpoint count_from (skip : nat) (s substr : string) : Z :=
  match s with
  | EmptyString => 0
  | String _ s' =>
      match skip with
      | S k => count_from k s' substr
      | O =>
          if String.prefix substr s
          then 1 + count_from (String.length substr - 1) s' substr
          else count_from 0 s' substr
      end
  end.

Definition Count (s substr : string) : Z := count_from 0 s substr.

(** The replacement loop, on the not yet copied rest [s[start:]]. *)
Fixpoint replace_loop (n : nat) (rest old new : string) : string :=
  match n with
  | O => rest
  | S n' =>
      let j := Z.to_nat (Index rest old) in
      let after := (j + String.length old)%nat in
      (String.substring 0 j rest ++ new ++
       replace_loop n'
         (String.substring after (String.length rest - after) rest)
         old new)%string
  end.

Definition Replace (s old new : string) (n : Z) : string :=
  if (old =? new)%string || (n =? 0) then s
  else
    let m := Count s old in
    if m =? 0 then s
    else
      let n := if (n <? 0) || (m <? n) then m else n in
      replace_loop (Z.to_nat n) s old new.

End Strings.

(** ** Transfers: [transfer.go] *)

Module Transfer.

Record L2TransferTxInfo : Set := {
  FromAccountIndex : Z;        (* int64 *)
  ApiKeyIndex : Z;             (* uint8 *)
  ToAccountIndex : Z;          (* int64 *)
  AssetIndex : Z;              (* int16 *)
  FromRouteType : Z;           (* uint8 *)
  ToRouteType : Z;             (* uint8 *)
  Amount : Z;                  (* int64 *)
  USDCFee : Z;                 (* int64 *)
  Memo : Vector.t byte 32;     (* [32]byte *)
  ExpiredAt : Z;               (* int64 *)
  Nonce : Z;                   (* int64 *)
  Sig : list byte;
  L1Sig : string;
  SignedHash : string
}.

(** The values a Go program can store in the integer fields. *)
Definition well_typed (txInfo : L2TransferTxInfo) : Prop :=
  GoInt.is_int 64 (FromAccountIndex txInfo) /\
  GoInt.is_uint 8 (ApiKeyIndex txInfo) /\
  GoInt.is_int 64 (ToAccountIndex txInfo) /\
  GoInt.is_int 16 (AssetIndex txInfo) /\
  GoInt.is_uint 8 (FromRouteType txInfo) /\
  GoInt.is_uint 8 (ToRouteType txInfo) /\
  GoInt.is_int 64 (Amount txInfo) /\
  GoInt.is_int 64 (USDCFee txInfo) /\
  GoInt.is_int 64 (ExpiredAt txInfo) /\
  GoInt.is_int 64 (Nonce txInfo).

Section Validation.
Context {consts : TxConstants}.

Definition Validate (txInfo : L2TransferTxInfo) : option error :=
  (* FromAccountIndex *)
  If FromAccountIndex txInfo <? MinAccountIndex + 1
    Return ErrFromAccountIndexTooLow ;;
  If FromAccountIndex txInfo >? MaxAccountIndex
    Return ErrFromAccountIndexTooHigh ;;
  (* ApiKeyIndex *)
  If ApiKeyIndex txInfo <? MinApiKeyIndex
    Return ErrApiKeyIndexTooLow ;;
  If ApiKeyIndex txInfo >? MaxApiKeyIndex
    Return ErrApiKeyIndexTooHigh ;;
  (* ToAccountIndex *)
  If ToAccountIndex txInfo <? MinAccountIndex
    Return ErrToAccountIndexTooLow ;;
  If ToAccountIndex txInfo >? MaxAccountIndex
    Return ErrToAccountIndexTooHigh ;;
  (* AssetIndex *)
  If AssetIndex txInfo <? MinAssetIndex
    Return ErrAssetIndexTooLow ;;
  If AssetIndex txInfo >? MaxAssetIndex
    Return ErrAssetIndexTooHigh ;;
  (* FromRouteType *)
  If negb (FromRouteType txInfo =? AssetRouteType_Perps)
     && negb (FromRouteType txInfo =? AssetRouteType_Spot)
    Return ErrRouteTypeInvalid ;;
  (* ToRouteType *)
  If negb (ToRouteType txInfo =? AssetRouteType_Perps)
     && negb (ToRouteType txInfo =? AssetRouteType_Spot)
    Return ErrRouteTypeInvalid ;;
  If Amount txInfo <=? 0
    Return ErrTransferAmountTooLow ;;
  If Amount txInfo >? MaxTransferAmount
    Return ErrTransferAmountTooHigh ;;
  If USDCFee txInfo <? 0
    Return ErrTransferFeeNegative ;;
  If USDCFee txInfo >? MaxTransferAmount
    Return ErrTransferFeeTooHigh ;;
  If Nonce txInfo <? MinNonce
    Return ErrNonceTooLow ;;
  If (ExpiredAt txInfo <? 0) || (ExpiredAt txInfo >? MaxTimestamp)
    Return ErrExpiredAtInvalid ;;
  None.

Definition GetTxType (txInfo : L2TransferTxInfo) : Z := TxTypeL2Transfer.

Definition GetTxHash (txInfo : L2TransferTxInfo) : string :=
  SignedHash txInfo.

End Validation.

Section Hashing.
Context {consts : TxConstants} {field : Goldilocks} {sponge : @Poseidon2 field}.

(** The slice [elems] of [Hash] when it reaches the [return]. *)
Definition preimage (txInfo : L2TransferTxInfo) (lighterChainId : Z)
  : list Element :=
  let elems := make 0 14 in
  let elems := append elems (FromUint32 lighterChainId) in
  let elems := append elems (FromUint32 TxTypeL2Transfer) in
  let elems := append elems (FromInt64 (Nonce txInfo)) in
  let elems := append elems (FromInt64 (ExpiredAt txInfo)) in
  let elems := append elems (FromInt64 (FromAccountIndex txInfo)) in
  let elems := append elems (FromUint32 (GoInt.uint32 (ApiKeyIndex txInfo))) in
  let elems := append elems (FromInt64 (ToAccountIndex txInfo)) in
  let elems := append elems (FromUint32 (GoInt.uint32 (AssetIndex txInfo))) in
  let elems := append elems (FromUint32 (GoInt.uint32 (FromRouteType txInfo))) in
  let elems := append elems (FromUint32 (GoInt.uint32 (ToRouteType txInfo))) in
  let elems := append elems
    (FromUint64 (GoInt.and_mask32 (GoInt.uint64 (Amount txInfo)))) in
  let elems := append elems
    (FromUint64 (GoInt.shr32 (GoInt.uint64 (Amount txInfo)))) in
  let elems := append elems
    (FromUint64 (GoInt.and_mask32 (GoInt.uint64 (USDCFee txInfo)))) in
  let elems := append elems
    (FromUint64 (GoInt.shr32 (GoInt.uint64 (USDCFee txInfo)))) in
  elems.

(** [Hash] returns the pair [(msgHash, err)]; the variadic [extra] is
    accepted and not read. *)
Definition Hash (txInfo : L2TransferTxInfo) (lighterChainId : Z)
  (extra : list Element) : list byte * option error :=
  (ToLittleEndianBytes
     (HashToQuinticExtension (preimage txInfo lighterChainId)),
   None).

End Hashing.

Section L1Body.
Context {fmt : L1Format}.

(** The memo as it is handed to [Sprintf]. *)
Definition hexMemo (txInfo : L2TransferTxInfo) : string :=
  let hexMemo := Hex.EncodeToString (Vector.to_list (Memo txInfo)) in
  let hexMemo := Strings.Replace hexMemo "0x" EmptyString 1 in
  hexMemo.

(** The operands of [Sprintf], in the order of the call. *)
Definition l1_operands (txInfo : L2TransferTxInfo) (chainId : Z)
  : list string :=
  [ getHex10FromUint64 (GoInt.uint64 (Nonce txInfo));
    getHex10FromUint64 (GoInt.uint64 (FromAccountIndex txInfo));
    getHex10FromUint64 (GoInt.uint64 (FromRouteType txInfo));
    getHex10FromUint64 (GoInt.uint64 (ApiKeyIndex txInfo));
    getHex10FromUint64 (GoInt.uint64 (ToAccountIndex txInfo));
    getHex10FromUint64 (GoInt.uint64 (ToRouteType txInfo));
    getHex10FromUint64 (GoInt.uint64 (AssetIndex txInfo));
    getHex10FromUint64 (GoInt.uint64 (Amount txInfo));
    getHex10FromUint64 (GoInt.uint64 (USDCFee txInfo));
    getHex10FromUint64 (GoInt.uint64 chainId);
    hexMemo txInfo ].

Definition GetL1SignatureBody (txInfo : L2TransferTxInfo) (chainId : Z)
  : string :=
  let signatureBody := Sprintf TemplateTransfer (l1_operands txInfo chainId) in
  signatureBody.

End L1Body.

End Transfer.

(** ** Withdrawals: [withdraw.go] *)

Module Withdraw.

Record L2WithdrawTxInfo : Set := {
  FromAccountIndex : Z;        (* int64 *)
  ApiKeyIndex : Z;             (* uint8 *)
  AssetIndex : Z;              (* int16 *)
  RouteType : Z;               (* uint8 *)
  Amount : Z;                  (* uint64 *)
  ExpiredAt : Z;               (* int64 *)
  Nonce : Z;                   (* int64 *)
  Sig : list byte;
  SignedHash : string
}.

Definition well_typed (txInfo : L2WithdrawTxInfo) : Prop :=
  GoInt.is_int 64 (FromAccountIndex txInfo) /\
  GoInt.is_uint 8 (ApiKeyIndex txInfo) /\
  GoInt.is_int 16 (AssetIndex txInfo) /\
  GoInt.is_uint 8 (RouteType txInfo) /\
  GoInt.is_uint 64 (Amount txInfo) /\
  GoInt.is_int 64 (ExpiredAt txInfo) /\
  GoInt.is_int 64 (Nonce txInfo).

Section Validation.
Context {consts : TxConstants}.

Definition Validate (txInfo : L2WithdrawTxInfo) : option error :=
  If FromAccountIndex txInfo <? MinAccountIndex
    Return ErrFromAccountIndexTooLow ;;
  If FromAccountIndex txInfo >? MaxAccountIndex
    Return ErrFromAccountIndexTooHigh ;;
  (* ApiKeyIndex *)
  If ApiKeyIndex txInfo <? MinApiKeyIndex
    Return ErrApiKeyIndexTooLow ;;
  If ApiKeyIndex txInfo >? MaxApiKeyIndex
    Return ErrApiKeyIndexTooHigh ;;
  (* AssetIndex *)
  If AssetIndex txInfo <? MinAssetIndex
    Return ErrAssetIndexTooLow ;;
  If AssetIndex txInfo >? MaxAssetIndex
    Return ErrAssetIndexTooHigh ;;
  (* RouteType *)
  If negb (RouteType txInfo =? AssetRouteType_Perps)
     && negb (RouteType txInfo =? AssetRouteType_Spot)
    Return ErrRouteTypeInvalid ;;
  (* Amount *)
  If Amount txInfo =? 0
    Return ErrWithdrawalAmountTooLow ;;
  If Amount txInfo >? MaxWithdrawalAmount
    Return ErrWithdrawalAmountTooHigh ;;
  If Nonce txInfo <? MinNonce
    Return ErrNonceTooLow ;;
  If (ExpiredAt txInfo <? 0) || (ExpiredAt txInfo >? MaxTimestamp)
    Return ErrExpiredAtInvalid ;;
  None.

Definition GetTxType (txInfo : L2WithdrawTxInfo) : Z := TxTypeL2Withdraw.

Definition GetTxHash (txInfo : L2WithdrawTxInfo) : string :=
  SignedHash txInfo.

End Validation.

Section Hashing.
Context {consts : TxConstants} {field : Goldilocks} {sponge : @Poseidon2 field}.

(** The slice [elems] of [Hash] when it reaches the [return]. *)
Definition preimage (txInfo : L2WithdrawTxInfo) (lighterChainId : Z)
  : list Element :=
  let elems := make 0 14 in
  let elems := append elems (FromUint32 lighterChainId) in
  let elems := append elems (FromUint32 TxTypeL2Withdraw) in
  let elems := append elems (FromInt64 (Nonce txInfo)) in
  let elems := append elems (FromInt64 (ExpiredAt txInfo)) in
  let elems := append elems (FromInt64 (FromAccountIndex txInfo)) in
  let elems := append elems (FromUint32 (GoInt.uint32 (ApiKeyIndex txInfo))) in
  let elems := append elems (FromUint32 (GoInt.uint32 (AssetIndex txInfo))) in
  let elems := append elems (FromUint32 (GoInt.uint32 (RouteType txInfo))) in
  let elems := append elems
    (FromUint64 (GoInt.uint64 (GoInt.and_mask32 (Amount txInfo)))) in
  let elems := append elems
    (FromUint64 (GoInt.uint64 (GoInt.shr32 (Amount txInfo)))) in
  elems.

Definition Hash (txInfo : L2WithdrawTxInfo) (lighterChainId : Z)
  (extra : list Element) : list byte * option error :=
  (ToLittleEndianBytes
     (HashToQuinticExtension (preimage txInfo lighterChainId)),
   None).

End Hashing.

End Withdraw.

(** ** Instances to run the definitions on

    A choice of constants within the ranges of the fields they bound, and
    small stand-ins for the field and hash libraries. *)

Definition sample_constants : TxConstants := {|
  MinAccountIndex := 0;
  MaxAccountIndex := 281474976710654;
  MinApiKeyIndex := 0;
  MaxApiKeyIndex := 254;
  MinAssetIndex := 1;
  MaxAssetIndex := 62;
  AssetRouteType_Perps := 0;
  AssetRouteType_Spot := 1;
  MaxTransferAmount := 2 ^ 60 - 1;
  MaxWithdrawalAmount := 2 ^ 60 - 1;
  MinNonce := 0;
  MaxTimestamp := 2 ^ 48 - 1;
  TxTypeL2Transfer := 12;
  TxTypeL2Withdraw := 13
|}.

Definition sample_field : Goldilocks := {|
  Element := Z;
  FromUint32 := fun x => x;
  FromInt64 := fun x => x mod (2 ^ 64 - 2 ^ 32 + 1);
  FromUint64 := fun x => x mod (2 ^ 64 - 2 ^ 32 + 1)
|}.

Definition sample_sponge : @Poseidon2 sample_field :=
  @Build_Poseidon2 sample_field (list Z)
    (fun elems : list Z => elems)
    (fun out : list Z => map (fun e : Z => Byte.x00) out).

(** A stand-in for the formatting helpers: [%s] verbs are replaced from
    left to right, numbers are written as ten hexadecimal digits. *)
Fixpoint subst_verbs (template : string) (operands : list string) : string :=
  match template with
  | String "%" (String "s" rest) =>
      match operands with
      | op :: operands' => (op ++ subst_verbs rest operands')%string
      | [] => ("%!s(MISSING)" ++ subst_verbs rest [])%string
      end
  | String c rest => String c (subst_verbs rest operands)
  | EmptyString => EmptyString
  end.

Fixpoint hex_digits (n : nat) (v : N) : string :=
  match n with
  | O => EmptyString
  | S n' =>
      (hex_digits n' (N.shiftr v 4) ++
       String (Hex.hextable_at (N.land v 15)) EmptyString)%string
  end.

Definition sample_format : L1Format := {|
  Sprintf := subst_verbs;
  getHex10FromUint64 := fun v => hex_digits 10 (Z.to_N v);
  TemplateTransfer := "nonce: %s from: %s/%s key: %s to: %s/%s asset: %s amount: %s fee: %s chain: %s memo: %s"
|}.

Definition sample_transfer : Transfer.L2TransferTxInfo := {|
  Transfer.FromAccountIndex := 7;
  Transfer.ApiKeyIndex := 3;
  Transfer.ToAccountIndex := 0;
  Transfer.AssetIndex := 2;
  Transfer.FromRouteType := 0;
  Transfer.ToRouteType := 1;
  Transfer.Amount := 2 ^ 32 + 5;
  Transfer.USDCFee := 9;
  Transfer.Memo := Vector.const Byte.x00 32;
  Transfer.ExpiredAt := 1000;
  Transfer.Nonce := 4;
  Transfer.Sig := [];
  Transfer.L1Sig := EmptyString;
  Transfer.SignedHash := EmptyString
|}.

Definition sample_withdraw : Withdraw.L2WithdrawTxInfo := {|
  Withdraw.FromAccountIndex := 0;
  Withdraw.ApiKeyIndex := 3;
  Withdraw.AssetIndex := 2;
  Withdraw.RouteType := 1;
  Withdraw.Amount := 2 ^ 32 + 5;
  Withdraw.ExpiredAt := 1000;
  Withdraw.Nonce := 4;
  Withdraw.Sig := [];
  Withdraw.SignedHash := EmptyString
|}.

(** Field updates used to move one field of a valid transaction. *)
Definition transfer_with_amount (tx : Transfer.L2TransferTxInfo) (a : Z)
  : Transfer.L2TransferTxInfo := {|
  Transfer.FromAccountIndex := Transfer.FromAccountIndex tx;
  Transfer.ApiKeyIndex := Transfer.ApiKeyIndex tx;
  Transfer.ToAccountIndex := Transfer.ToAccountIndex tx;
  Transfer.AssetIndex := Transfer.AssetIndex tx;
  Transfer.FromRouteType := Transfer.FromRouteType tx;
  Transfer.ToRouteType := Transfer.ToRouteType tx;
  Transfer.Amount := a;
  Transfer.USDCFee := Transfer.USDCFee tx;
  Transfer.Memo := Transfer.Memo tx;
  Transfer.ExpiredAt := Transfer.ExpiredAt tx;
  Transfer.Nonce := Transfer.Nonce tx;
  Transfer.Sig := Transfer.Sig tx;
  Transfer.L1Sig := Transfer.L1Sig tx;
  Transfer.SignedHash := Transfer.SignedHash tx
|}.

Definition transfer_with_to (tx : Transfer.L2TransferTxInfo) (a : Z)
  : Transfer.L2TransferTxInfo := {|
  Transfer.FromAccountIndex := Transfer.FromAccountIndex tx;
  Transfer.ApiKeyIndex := Transfer.ApiKeyIndex tx;
  Transfer.ToAccountIndex := a;
  Transfer.AssetIndex := Transfer.AssetIndex tx;
  Transfer.FromRouteType := Transfer.FromRouteType tx;
  Transfer.ToRouteType := Transfer.ToRouteType tx;
  Transfer.Amount := Transfer.Amount tx;
  Transfer.USDCFee := Transfer.USDCFee tx;
  Transfer.Memo := Transfer.Memo tx;
  Transfer.ExpiredAt := Transfer.ExpiredAt tx;
  Transfer.Nonce := Transfer.Nonce tx;
  Transfer.Sig := Transfer.Sig tx;
  Transfer.L1Sig := Transfer.L1Sig tx;
  Transfer.SignedHash := Transfer.SignedHash tx
|}.

Definition transfer_with_from (tx : Transfer.L2TransferTxInfo) (a : Z)
  : Transfer.L2TransferTxInfo := {|
  Transfer.FromAccountIndex := a;
  Transfer.ApiKeyIndex := Transfer.ApiKeyIndex tx;
  Transfer.ToAccountIndex := Transfer.ToAccountIndex tx;
  Transfer.AssetIndex := Transfer.AssetIndex tx;
  Transfer.FromRouteType := Transfer.FromRouteType tx;
  Transfer.ToRouteType := Transfer.ToRouteType tx;
  Transfer.Amount := Transfer.Amount tx;
  Transfer.USDCFee := Transfer.USDCFee tx;
  Transfer.Memo := Transfer.Memo tx;
  Transfer.ExpiredAt := Transfer.ExpiredAt tx;
  Transfer.Nonce := Transfer.Nonce tx;
  Transfer.Sig := Transfer.Sig tx;
  Transfer.L1Sig := Transfer.L1Sig tx;
  Transfer.SignedHash := Transfer.SignedHash tx
|}.

Definition withdraw_with_from (tx : Withdraw.L2WithdrawTxInfo) (a : Z)
  : Withdraw.L2WithdrawTxInfo := {|
  Withdraw.FromAccountIndex := a;
  Withdraw.ApiKeyIndex := Withdraw.ApiKeyIndex tx;
  Withdraw.AssetIndex := Withdraw.AssetIndex tx;
  Withdraw.RouteType := Withdraw.RouteType tx;
  Withdraw.Amount := Withdraw.Amount tx;
  Withdraw.ExpiredAt := Withdraw.ExpiredAt tx;
  Withdraw.Nonce := Withdraw.Nonce tx;
  Withdraw.Sig := Withdraw.Sig tx;
  Withdraw.SignedHash := Withdraw.SignedHash tx
|}.

Definition withdraw_with_route (tx : Withdraw.L2WithdrawTxInfo) (r : Z)
  : Withdraw.L2WithdrawTxInfo := {|
  Withdraw.FromAccountIndex := Withdraw.FromAccountIndex tx;
  Withdraw.ApiKeyIndex := Withdraw.ApiKeyIndex tx;
  Withdraw.AssetIndex := Withdraw.AssetIndex tx;
  Withdraw.RouteType := r;
  Withdraw.Amount := Withdraw.Amount tx;
  Withdraw.ExpiredAt := Withdraw.ExpiredAt tx;
  Withdraw.Nonce := Withdraw.Nonce tx;
  Withdraw.Sig := Withdraw.Sig tx;
  Withdraw.SignedHash := Withdraw.SignedHash tx
|}.

(** ** The bounds the validators enforce, as propositions *)

Section Bounds.
Context {consts : TxConstants}.

Definition defined_route (r : Z) : Prop :=
  r = AssetRouteType_Perps \/ r = AssetRouteType_Spot.

(** Every field of a transfer but [Amount] is within its bounds. *)
Definition transfer_others_valid (tx : Transfer.L2TransferTxInfo) : Prop :=
  MinAccountIndex + 1 <= Transfer.FromAccountIndex tx <= MaxAccountIndex /\
  MinApiKeyIndex <= Transfer.ApiKeyIndex tx <= MaxApiKeyIndex /\
  MinAccountIndex <= Transfer.ToAccountIndex tx <= MaxAccountIndex /\
  MinAssetIndex <= Transfer.AssetIndex tx <= MaxAssetIndex /\
  defined_route (Transfer.FromRouteType tx) /\
  defined_route (Transfer.ToRouteType tx) /\
  0 <= Transfer.USDCFee tx <= MaxTransferAmount /\
  MinNonce <= Transfer.Nonce tx /\
  0 <= Transfer.ExpiredAt tx <= MaxTimestamp.

(** Every field of a withdrawal but [RouteType] is within its bounds. *)
Definition withdraw_others_valid (tx : Withdraw.L2WithdrawTxInfo) : Prop :=
  MinAccountIndex <= Withdraw.FromAccountIndex tx <= MaxAccountIndex /\
  MinApiKeyIndex <= Withdraw.ApiKeyIndex tx <= MaxApiKeyIndex /\
  MinAssetIndex <= Withdraw.AssetIndex tx <= MaxAssetIndex /\
  0 < Withdraw.Amount tx <= MaxWithdrawalAmount /\
  MinNonce <= Withdraw.Nonce tx /\
  0 <= Withdraw.ExpiredAt tx <= MaxTimestamp.

End Bounds.

(** The fields of a transaction that [Hash] reads. *)
Definition transfer_hashed_fields (tx : Transfer.L2TransferTxInfo) : list Z :=
  [ Transfer.Nonce tx; Transfer.ExpiredAt tx; Transfer.FromAccountIndex tx;
    Transfer.ApiKeyIndex tx; Transfer.ToAccountIndex tx; Transfer.AssetIndex tx;
    Transfer.FromRouteType tx; Transfer.ToRouteType tx; Transfer.Amount tx;
    Transfer.USDCFee tx ].

Definition withdraw_hashed_fields (tx : Withdraw.L2WithdrawTxInfo) : list Z :=
  [ Withdraw.Nonce tx; Withdraw.ExpiredAt tx; Withdraw.FromAccountIndex tx;
    Withdraw.ApiKeyIndex tx; Withdraw.AssetIndex tx; Withdraw.RouteType tx;
    Withdraw.Amount tx ].

(** ** The remaining method of a transfer *)

(** The package's [calculateL1AddressBySignature], which recovers the signer
    of an L1 body; its declaration is in another file. *)
Class L1Recover : Type := {
  Address : Type;
  calculateL1AddressBySignature : string -> string -> Address
}.

Module TransferL1.
Section Recover.
Context {fmt : L1Format} {recover : L1Recover}.

Definition GetL1AddressBySignature (txInfo : Transfer.L2TransferTxInfo)
  (chainId : Z) : Address :=
  calculateL1AddressBySignature
    (Transfer.GetL1SignatureBody txInfo chainId) (Transfer.L1Sig txInfo).

End Recover.
End TransferL1.

(** The fields of a transfer that the L1 body reads. *)
Definition transfer_l1_fields (tx : Transfer.L2TransferTxInfo)
  : list Z * Vector.t byte 32 :=
  ([ Transfer.Nonce tx; Transfer.FromAccountIndex tx; Transfer.FromRouteType tx;
     Transfer.ApiKeyIndex tx; Transfer.ToAccountIndex tx; Transfer.ToRouteType tx;
     Transfer.AssetIndex tx; Transfer.Amount tx; Transfer.USDCFee tx ],
   Transfer.Memo tx).

Definition transfer_with_expiry (tx : Transfer.L2TransferTxInfo) (e : Z)
  : Transfer.L2TransferTxInfo := {|
  Transfer.FromAccountIndex := Transfer.FromAccountIndex tx;
  Transfer.ApiKeyIndex := Transfer.ApiKeyIndex tx;
  Transfer.ToAccountIndex := Transfer.ToAccountIndex tx;
  Transfer.AssetIndex := Transfer.AssetIndex tx;
  Transfer.FromRouteType := Transfer.FromRouteType tx;
  Transfer.ToRouteType := Transfer.ToRouteType tx;
  Transfer.Amount := Transfer.Amount tx;
  Transfer.USDCFee := Transfer.USDCFee tx;
  Transfer.Memo := Transfer.Memo tx;
  Transfer.ExpiredAt := e;
  Transfer.Nonce := Transfer.Nonce tx;
  Transfer.Sig := Transfer.Sig tx;
  Transfer.L1Sig := Transfer.L1Sig tx;
  Transfer.SignedHash := Transfer.SignedHash tx
|}.

Definition transfer_with_memo (tx : Transfer.L2TransferTxInfo)
  (m : Vector.t byte 32) : Transfer.L2TransferTxInfo := {|
  Transfer.FromAccountIndex := Transfer.FromAccountIndex tx;
  Transfer.ApiKeyIndex := Transfer.ApiKeyIndex tx;
  Transfer.ToAccountIndex := Transfer.ToAccountIndex tx;
  Transfer.AssetIndex := Transfer.AssetIndex tx;
  Transfer.FromRouteType := Transfer.FromRouteType tx;
  Transfer.ToRouteType := Transfer.ToRouteType tx;
  Transfer.Amount := Transfer.Amount tx;
  Transfer.USDCFee := Transfer.USDCFee tx;
  Transfer.Memo := m;
  Transfer.ExpiredAt := Transfer.ExpiredAt tx;
  Transfer.Nonce := Transfer.Nonce tx;
  Transfer.Sig := Transfer.Sig tx;
  Transfer.L1Sig := Transfer.L1Sig tx;
  Transfer.SignedHash := Transfer.SignedHash tx
|}.

(** A stand-in for the address recovery: it keeps both of its inputs. *)
Definition sample_recover : L1Recover := {|
  Address := string * string;
  calculateL1AddressBySignature := fun body sig => (body, sig)
|}.

(** ** The checks of the validators, group by group *)

Section Checks.
Context {consts : TxConstants}.

(** The account, key and asset checks of a transfer: its first eight. *)
Definition transfer_indices_ok (tx : Transfer.L2TransferTxInfo) : Prop :=
  MinAccountIndex + 1 <= Transfer.FromAccountIndex tx <= MaxAccountIndex /\
  MinApiKeyIndex <= Transfer.ApiKeyIndex tx <= MaxApiKeyIndex /\
  MinAccountIndex <= Transfer.ToAccountIndex tx <= MaxAccountIndex /\
  MinAssetIndex <= Transfer.AssetIndex tx <= MaxAssetIndex.

Definition transfer_routes_ok (tx : Transfer.L2TransferTxInfo) : Prop :=
  defined_route (Transfer.FromRouteType tx) /\
  defined_route (Transfer.ToRouteType tx).

Definition transfer_amount_ok (tx : Transfer.L2TransferTxInfo) : Prop :=
  0 < Transfer.Amount tx <= MaxTransferAmount.

Definition transfer_fee_ok (tx : Transfer.L2TransferTxInfo) : Prop :=
  0 <= Transfer.USDCFee tx <= MaxTransferAmount.

(** Every bound of a transfer. *)
Definition transfer_valid (tx : Transfer.L2TransferTxInfo) : Prop :=
  transfer_indices_ok tx /\ transfer_routes_ok tx /\
  transfer_amount_ok tx /\ transfer_fee_ok tx /\
  MinNonce <= Transfer.Nonce tx /\
  0 <= Transfer.ExpiredAt tx <= MaxTimestamp.

(** The account, key and asset checks of a withdrawal: its first six. *)
Definition withdraw_indices_ok (tx : Withdraw.L2WithdrawTxInfo) : Prop :=
  MinAccountIndex <= Withdraw.FromAccountIndex tx <= MaxAccountIndex /\
  MinApiKeyIndex <= Withdraw.ApiKeyIndex tx <= MaxApiKeyIndex /\
  MinAssetIndex <= Withdraw.AssetIndex tx <= MaxAssetIndex.

Definition withdraw_amount_ok (tx : Withdraw.L2WithdrawTxInfo) : Prop :=
  Withdraw.Amount tx <> 0 /\ Withdraw.Amount tx <= MaxWithdrawalAmount.

(** Every bound of a withdrawal. *)
Definition withdraw_valid (tx : Withdraw.L2WithdrawTxInfo) : Prop :=
  withdraw_indices_ok tx /\ defined_route (Withdraw.RouteType tx) /\
  withdraw_amount_ok tx /\
  MinNonce <= Withdraw.Nonce tx /\
  0 <= Withdraw.ExpiredAt tx <= MaxTimestamp.

(** The lower bounds are not negative, so that validated fields are not. *)
Definition nonneg_minima : Prop :=
  0 <= MinAccountIndex /\ 0 <= MinAssetIndex /\ 0 <= MinNonce.

End Checks.

(** [f] tells apart the numbers from [0] to [bound - 1]. *)
Definition injective_below {E : Type} (bound : Z) (f : Z -> E) : Prop :=
  forall x y : Z, 0 <= x < bound -> 0 <= y < bound -> f x = f y -> x = y.

(** The injections of the field library tell apart the values that
    validated fields and limbs take. *)
Definition separating_field {field : Goldilocks} : Prop :=
  injective_below (2 ^ 32) FromUint32 /\
  injective_below (2 ^ 63) FromInt64 /\
  injective_below (2 ^ 32) FromUint64.

(** Reading a hexadecimal string back, two characters per byte value. *)
Definition unhex (c : ascii) : N :=
  let n := N_of_ascii c in
  (if n <=? 57 then n - 48 else n - 87)%N.

Fixpoint unhex_pairs (s : string) : list N :=
  match s with
  | String hi (String lo rest) =>
      (16 * unhex hi + unhex lo)%N :: unhex_pairs rest
  | _ => []
  end.

(** The lowercase hexadecimal encoding, in words: every byte gives two
    characters, the digit of its value divided by 16 and then the digit of
    the remainder; the digits 0 to 9 are written ['0'] to ['9'], the digits
    10 to 15 ['a'] to ['f']. *)
Definition hex_digit (d : N) : ascii :=
  if (d <? 10)%N then ascii_of_N (48 + d) else ascii_of_N (87 + d).

Fixpoint lower_hex_of_bytes (bs : list byte) : string :=
  match bs with
  | [] => EmptyString
  | b :: bs' =>
      String (hex_digit (Byte.to_N b / 16))
        (String (hex_digit (Byte.to_N b mod 16)) (lower_hex_of_bytes bs'))
  end.

(** A memo with digits and letters in both positions. *)
Definition sample_memo : Vector.t byte 32 :=
  Vector.of_list
    [ Byte.xde; Byte.xad; Byte.xbe; Byte.xef; Byte.x00; Byte.x01; Byte.x0a;
      Byte.x10; Byte.x7f; Byte.x80; Byte.x9c; Byte.xff; Byte.x30; Byte.x78;
      Byte.x0f; Byte.xf0; Byte.x12; Byte.x34; Byte.x56; Byte.x78; Byte.x9a;
      Byte.xbc; Byte.xde; Byte.xf0; Byte.x2b; Byte.xc4; Byte.x5d; Byte.xe6;
      Byte.x69; Byte.x96; Byte.xa5; Byte.x5a ].

(** ** Proof automation *)

(** Turns the boolean tests of a validator into (in)equalities of [Z]. *)
Ltac bool_to_prop :=
  repeat match goal with
    | E : _ = true |- _ =>
        first [ rewrite andb_true_iff in E | rewrite orb_true_iff in E
              | rewrite negb_true_iff in E | rewrite Z.ltb_lt in E
              | rewrite Z.leb_le in E | rewrite Z.eqb_eq in E
              | rewrite Z.gtb_ltb, Z.ltb_lt in E ]
    | E : _ = false |- _ =>
        first [ rewrite andb_false_iff in E | rewrite orb_false_iff in E
              | rewrite negb_false_iff in E | rewrite Z.ltb_ge in E
              | rewrite Z.leb_gt in E | rewrite Z.eqb_neq in E
              | rewrite Z.gtb_ltb, Z.ltb_ge in E ]
    | E : _ /\ _ |- _ => destruct E
    | E : _ \/ _ |- _ => destruct E
    end.

(** Runs a validator check by check, keeping what each test established. *)
Ltac step_validate :=
  repeat match goal with
    | |- context [if ?b then _ else _] => destruct b eqn:?
    | E : context [if ?b then _ else _] |- _ => destruct b eqn:?
    end;
  bool_to_prop.

Ltac run_validate :=
  unfold Transfer.Validate, Withdraw.Validate, transfer_others_valid,
    withdraw_others_valid, defined_route in *;
  cbn [Transfer.FromAccountIndex Transfer.ApiKeyIndex Transfer.ToAccountIndex
       Transfer.AssetIndex Transfer.FromRouteType Transfer.ToRouteType
       Transfer.Amount Transfer.USDCFee Transfer.ExpiredAt Transfer.Nonce
       Withdraw.FromAccountIndex Withdraw.ApiKeyIndex Withdraw.AssetIndex
       Withdraw.RouteType Withdraw.Amount Withdraw.ExpiredAt Withdraw.Nonce
       transfer_with_amount transfer_with_to transfer_with_from
       withdraw_with_from withdraw_with_route] in *;
  step_validate;
  try solve [ reflexivity | discriminate | congruence | lia | exfalso; lia ].

(** The same, for the checks taken group by group. *)
Ltac run_checks :=
  unfold transfer_valid, transfer_indices_ok, transfer_routes_ok,
    transfer_amount_ok, transfer_fee_ok, withdraw_valid, withdraw_indices_ok,
    withdraw_amount_ok in *;
  run_validate.

(** ** Limbs of a 64-bit value *)

Section Limbs.

Lemma mask32_is_ones : 0xFFFFFFFF = Z.ones 32.
Proof. reflexivity. Qed.

Lemma and_mask32_mod (v : Z) : GoInt.and_mask32 v = v mod 2 ^ 32.
Proof.
  unfold GoInt.and_mask32. rewrite mask32_is_ones.
  apply Z.land_ones. lia.
Qed.

Lemma shr32_div (v : Z) : GoInt.shr32 v = v / 2 ^ 32.
Proof. unfold GoInt.shr32. apply Z.shiftr_div_pow2. lia. Qed.

Lemma uint64_range (x : Z) : GoInt.is_uint 64 (GoInt.uint64 x).
Proof. unfold GoInt.is_uint, GoInt.uint64. apply Z.mod_pos_bound. lia. Qed.

Lemma uint64_id (v : Z) : GoInt.is_uint 64 v -> GoInt.uint64 v = v.
Proof. unfold GoInt.is_uint, GoInt.uint64. intros Hv. apply Z.mod_small. exact Hv. Qed.

Lemma uint32_id (v : Z) : GoInt.is_uint 32 v -> GoInt.uint32 v = v.
Proof. unfold GoInt.is_uint, GoInt.uint32. intros Hv. apply Z.mod_small. exact Hv. Qed.

Lemma limb_lo_range (v : Z) : GoInt.is_uint 32 (GoInt.and_mask32 v).
Proof.
  rewrite and_mask32_mod. unfold GoInt.is_uint.
  apply Z.mod_pos_bound. lia.
Qed.

Lemma limb_hi_range (v : Z) :
  GoInt.is_uint 64 v -> GoInt.is_uint 32 (GoInt.shr32 v).
Proof.
  rewrite shr32_div. unfold GoInt.is_uint. intros [Hlo Hhi]. split.
  - apply Z.div_pos; lia.
  - apply Z.div_lt_upper_bound; [lia|].
    change (2 ^ 32 * 2 ^ 32) with (2 ^ 64). exact Hhi.
Qed.

Lemma limbs_sum (v : Z) :
  GoInt.and_mask32 v + Z.shiftl (GoInt.shr32 v) 32 = v.
Proof.
  rewrite and_mask32_mod, shr32_div, Z.shiftl_mul_pow2 by lia.
  pose proof (Z.div_mod v (2 ^ 32)) as E. lia.
Qed.

End Limbs.

(** ** The canonical preimages *)

Section Preimages.
Context {consts : TxConstants} {field : Goldilocks} {sponge : @Poseidon2 field}.

(** C1: for every transfer and every chain id, [Hash] builds exactly 14
    field elements, in the order chain tag, type tag, nonce, expiry,
    from-account, API-key index, to-account, asset index, from-route,
    to-route, amount low limb, amount high limb, fee low limb, fee high
    limb, and its digest is the sponge hash of that sequence. *)
Theorem transfer_hash_preimage
  (txInfo : Transfer.L2TransferTxInfo) (lighterChainId : Z)
  (extra : list Element) :
  let amount := GoInt.uint64 (Transfer.Amount txInfo) in
  let fee := GoInt.uint64 (Transfer.USDCFee txInfo) in
  let canonical :=
    [ FromUint32 lighterChainId;
      FromUint32 (Transfer.GetTxType txInfo);
      FromInt64 (Transfer.Nonce txInfo);
      FromInt64 (Transfer.ExpiredAt txInfo);
      FromInt64 (Transfer.FromAccountIndex txInfo);
      FromUint32 (GoInt.uint32 (Transfer.ApiKeyIndex txInfo));
      FromInt64 (Transfer.ToAccountIndex txInfo);
      FromUint32 (GoInt.uint32 (Transfer.AssetIndex txInfo));
      FromUint32 (GoInt.uint32 (Transfer.FromRouteType txInfo));
      FromUint32 (GoInt.uint32 (Transfer.ToRouteType txInfo));
      FromUint64 (amount mod 2 ^ 32);
      FromUint64 (amount / 2 ^ 32);
      FromUint64 (fee mod 2 ^ 32);
      FromUint64 (fee / 2 ^ 32) ] in
  Transfer.preimage txInfo lighterChainId = canonical /\
  List.length (Transfer.preimage txInfo lighterChainId) = 14%nat /\
  Transfer.GetTxType txInfo = TxTypeL2Transfer /\
  fst (Transfer.Hash txInfo lighterChainId extra) =
    ToLittleEndianBytes (HashToQuinticExtension canonical).
Proof.
  intros amount fee canonical.
  assert (E : Transfer.preimage txInfo lighterChainId = canonical).
  { unfold Transfer.preimage, canonical, amount, fee, append, make.
    rewrite !and_mask32_mod, !shr32_div. reflexivity. }
  split; [exact E|].
  split; [rewrite E; reflexivity|].
  split; [reflexivity|].
  unfold Transfer.Hash. simpl. now rewrite E.
Qed.

(** C2: for every withdrawal and every chain id, [Hash] builds exactly 10
    field elements, in the order chain tag, type tag, nonce, expiry,
    from-account, API-key index, asset index, route, amount low limb,
    amount high limb, and its digest is the sponge hash of that
    sequence. *)
Theorem withdraw_hash_preimage
  (txInfo : Withdraw.L2WithdrawTxInfo) (lighterChainId : Z)
  (extra : list Element) :
  let amount := Withdraw.Amount txInfo in
  let canonical :=
    [ FromUint32 lighterChainId;
      FromUint32 (Withdraw.GetTxType txInfo);
      FromInt64 (Withdraw.Nonce txInfo);
      FromInt64 (Withdraw.ExpiredAt txInfo);
      FromInt64 (Withdraw.FromAccountIndex txInfo);
      FromUint32 (GoInt.uint32 (Withdraw.ApiKeyIndex txInfo));
      FromUint32 (GoInt.uint32 (Withdraw.AssetIndex txInfo));
      FromUint32 (GoInt.uint32 (Withdraw.RouteType txInfo));
      FromUint64 (GoInt.uint64 (amount mod 2 ^ 32));
      FromUint64 (GoInt.uint64 (amount / 2 ^ 32)) ] in
  Withdraw.preimage txInfo lighterChainId = canonical /\
  List.length (Withdraw.preimage txInfo lighterChainId) = 10%nat /\
  Withdraw.GetTxType txInfo = TxTypeL2Withdraw /\
  fst (Withdraw.Hash txInfo lighterChainId extra) =
    ToLittleEndianBytes (HashToQuinticExtension canonical).
Proof.
  intros amount canonical.
  assert (E : Withdraw.preimage txInfo lighterChainId = canonical).
  { unfold Withdraw.preimage, canonical, amount, append, make.
    rewrite !and_mask32_mod, !shr32_div. reflexivity. }
  split; [exact E|].
  split; [rewrite E; reflexivity|].
  split; [reflexivity|].
  unfold Withdraw.Hash. simpl. now rewrite E.
Qed.

(** On the values the fields can hold, the conversions inside the
    preimages keep the number: the limbs of a withdrawal are the plain
    remainder and quotient of the amount by [2^32]. *)
Lemma withdraw_limbs_well_typed (txInfo : Withdraw.L2WithdrawTxInfo) (c : Z) :
  Withdraw.well_typed txInfo ->
  nth_error (Withdraw.preimage txInfo c) 8 =
    Some (FromUint64 (Withdraw.Amount txInfo mod 2 ^ 32)) /\
  nth_error (Withdraw.preimage txInfo c) 9 =
    Some (FromUint64 (Withdraw.Amount txInfo / 2 ^ 32)).
Proof.
  intros (_ & _ & _ & _ & Ha & _).
  unfold Withdraw.preimage, append, make. simpl.
  pose proof (limb_lo_range (Withdraw.Amount txInfo)) as Hlo.
  pose proof (limb_hi_range _ Ha) as Hhi.
  rewrite !uint64_id.
  - now rewrite and_mask32_mod, shr32_div.
  - unfold GoInt.is_uint in *. lia.
  - unfold GoInt.is_uint in *. lia.
Qed.

(** On a well-typed transfer with non-negative asset index, amount and fee
    (as [Validate] requires of the last two), no conversion changes a number:
    the preimage holds the fields themselves and the plain remainders and
    quotients by [2^32]. *)
Lemma transfer_preimage_well_typed (txInfo : Transfer.L2TransferTxInfo) (c : Z) :
  Transfer.well_typed txInfo ->
  0 <= Transfer.AssetIndex txInfo ->
  0 <= Transfer.Amount txInfo ->
  0 <= Transfer.USDCFee txInfo ->
  Transfer.preimage txInfo c =
    [ FromUint32 c;
      FromUint32 TxTypeL2Transfer;
      FromInt64 (Transfer.Nonce txInfo);
      FromInt64 (Transfer.ExpiredAt txInfo);
      FromInt64 (Transfer.FromAccountIndex txInfo);
      FromUint32 (Transfer.ApiKeyIndex txInfo);
      FromInt64 (Transfer.ToAccountIndex txInfo);
      FromUint32 (Transfer.AssetIndex txInfo);
      FromUint32 (Transfer.FromRouteType txInfo);
      FromUint32 (Transfer.ToRouteType txInfo);
      FromUint64 (Transfer.Amount txInfo mod 2 ^ 32);
      FromUint64 (Transfer.Amount txInfo / 2 ^ 32);
      FromUint64 (Transfer.USDCFee txInfo mod 2 ^ 32);
      FromUint64 (Transfer.USDCFee txInfo / 2 ^ 32) ].
Proof.
  intros (_ & Hk & _ & Hi & Hfr & Htr & Ha & Hf & _) Hi0 Ha0 Hf0.
  unfold GoInt.is_uint, GoInt.is_int in *.
  unfold Transfer.preimage, append, make. cbn [app].
  rewrite !and_mask32_mod, !shr32_div.
  rewrite !uint32_id, !uint64_id by (unfold GoInt.is_uint; lia).
  reflexivity.
Qed.

(** C9: for every transfer and every withdrawal, validated or not, and
    every chain id, the error result of [Hash] is [nil]. *)
Theorem hash_error_is_nil :
  (forall (txInfo : Transfer.L2TransferTxInfo) (lighterChainId : Z)
          (extra : list Element),
      snd (Transfer.Hash txInfo lighterChainId extra) = None) /\
  (forall (txInfo : Withdraw.L2WithdrawTxInfo) (lighterChainId : Z)
          (extra : list Element),
      snd (Withdraw.Hash txInfo lighterChainId extra) = None).
Proof. split; intros; reflexivity. Qed.

End Preimages.

(** ** Limb splitting and the fields that are hashed *)

Section HashProperties.
Context {consts : TxConstants} {field : Goldilocks} {sponge : @Poseidon2 field}.

(** C7: a 64-bit unsigned [v] split into [v & 0xFFFFFFFF] and [v >> 32]
    is rebuilt by [low + (high << 32)]; both limbs fit 32 bits, and the
    preimage builders emit the low limb directly before the high limb. *)
Theorem limb_split_roundtrip (v : Z) (Hv : GoInt.is_uint 64 v) :
  let lo := GoInt.and_mask32 v in
  let hi := GoInt.shr32 v in
  GoInt.is_uint 32 lo /\ GoInt.is_uint 32 hi /\
  lo + Z.shiftl hi 32 = v /\
  GoInt.join32 lo hi = v /\
  (forall (txInfo : Withdraw.L2WithdrawTxInfo) (c : Z),
      Withdraw.Amount txInfo = v ->
      nth_error (Withdraw.preimage txInfo c) 8 = Some (FromUint64 lo) /\
      nth_error (Withdraw.preimage txInfo c) 9 = Some (FromUint64 hi)) /\
  (forall (txInfo : Transfer.L2TransferTxInfo) (c : Z),
      GoInt.uint64 (Transfer.Amount txInfo) = v ->
      nth_error (Transfer.preimage txInfo c) 10 = Some (FromUint64 lo) /\
      nth_error (Transfer.preimage txInfo c) 11 = Some (FromUint64 hi)) /\
  (forall (txInfo : Transfer.L2TransferTxInfo) (c : Z),
      GoInt.uint64 (Transfer.USDCFee txInfo) = v ->
      nth_error (Transfer.preimage txInfo c) 12 = Some (FromUint64 lo) /\
      nth_error (Transfer.preimage txInfo c) 13 = Some (FromUint64 hi)).
Proof.
  intros lo hi.
  pose proof (limb_lo_range v) as Hlo.
  pose proof (limb_hi_range v Hv) as Hhi.
  pose proof (limbs_sum v) as Hsum.
  fold lo hi in Hlo, Hhi, Hsum.
  split; [exact Hlo|]. split; [exact Hhi|]. split; [exact Hsum|].
  split.
  - unfold GoInt.join32.
    assert (Hsh : GoInt.is_uint 64 (Z.shiftl hi 32)).
    { unfold GoInt.is_uint in *. rewrite Z.shiftl_mul_pow2 by lia. lia. }
    rewrite (uint64_id _ Hsh), Hsum. now apply uint64_id.
  - split; [|split]; intros txInfo c Ev.
    + unfold Withdraw.preimage, append, make. simpl. rewrite Ev.
      fold lo hi. rewrite !uint64_id; [split; reflexivity| |];
        unfold GoInt.is_uint in *; lia.
    + unfold Transfer.preimage, append, make. simpl. rewrite Ev.
      split; reflexivity.
    + unfold Transfer.preimage, append, make. simpl. rewrite Ev.
      split; reflexivity.
Qed.

(** X18: [Hash] reads the chain id and the numeric fields only: two
    transactions (transfers or withdrawals) that agree on those get the
    same digest, whatever their memo, signatures and signed hash and the
    variadic argument are; so hashing again once [Sig] and [SignedHash]
    are filled in gives the digest that was signed. *)
Theorem hash_reads_hashed_fields :
  (forall (tx1 tx2 : Transfer.L2TransferTxInfo) (c1 c2 : Z)
          (extra1 extra2 : list Element),
      transfer_hashed_fields tx1 = transfer_hashed_fields tx2 ->
      c1 = c2 ->
      Transfer.Hash tx1 c1 extra1 = Transfer.Hash tx2 c2 extra2) /\
  (forall (tx1 tx2 : Withdraw.L2WithdrawTxInfo) (c1 c2 : Z)
          (extra1 extra2 : list Element),
      withdraw_hashed_fields tx1 = withdraw_hashed_fields tx2 ->
      c1 = c2 ->
      Withdraw.Hash tx1 c1 extra1 = Withdraw.Hash tx2 c2 extra2).
Proof.
  split; intros tx1 tx2 c1 c2 extra1 extra2 Ef Ec; subst c2.
  - unfold Transfer.Hash, Transfer.preimage.
    unfold transfer_hashed_fields in Ef. injection Ef as -> -> -> -> -> -> -> -> -> ->.
    reflexivity.
  - unfold Withdraw.Hash, Withdraw.preimage.
    unfold withdraw_hashed_fields in Ef. injection Ef as -> -> -> -> -> -> ->.
    reflexivity.
Qed.

End HashProperties.

(** ** The validators *)

Section Validators.
Context {consts : TxConstants}.

(** C4: for a transfer whose other fields are within bounds, [Validate]
    returns the amount-too-low error at [Amount = 0], the amount-too-high
    error at [Amount = MaxTransferAmount + 1], and no error for every
    [Amount] in [(0, MaxTransferAmount]]. *)
Theorem transfer_amount_bounds (txInfo : Transfer.L2TransferTxInfo) :
  transfer_others_valid txInfo ->
  (Transfer.Amount txInfo = 0 ->
     Transfer.Validate txInfo = Some ErrTransferAmountTooLow) /\
  (Transfer.Amount txInfo = MaxTransferAmount + 1 ->
     Transfer.Validate txInfo = Some ErrTransferAmountTooHigh) /\
  (0 < Transfer.Amount txInfo <= MaxTransferAmount ->
     Transfer.Validate txInfo = None).
Proof.
  intros Hv. split; [|split]; intros Ha; run_validate.
Qed.

(** C5: for a withdrawal whose other fields are within bounds, [Validate]
    returns the route-invalid error exactly when [RouteType] is neither
    [AssetRouteType_Perps] nor [AssetRouteType_Spot], and returns no
    error for either of the two. *)
Theorem withdraw_route_enumeration (txInfo : Withdraw.L2WithdrawTxInfo) :
  withdraw_others_valid txInfo ->
  (Withdraw.Validate txInfo = Some ErrRouteTypeInvalid <->
     Withdraw.RouteType txInfo <> AssetRouteType_Perps /\
     Withdraw.RouteType txInfo <> AssetRouteType_Spot) /\
  (defined_route (Withdraw.RouteType txInfo) ->
     Withdraw.Validate txInfo = None).
Proof.
  intros Hv. split; [split|]; intros Hr; run_validate.
Qed.

(** C6: the transfer validator rejects a sender index below
    [MinAccountIndex + 1] with the from-account-too-low error and accepts
    a recipient index down to [MinAccountIndex]; the withdrawal validator
    accepts a sender index down to [MinAccountIndex].  The least sender of
    a transfer is one above the least recipient of a transfer and the
    least sender of a withdrawal. *)
Theorem sender_minimum_asymmetry :
  (forall tx : Transfer.L2TransferTxInfo,
      Transfer.Validate tx = Some ErrFromAccountIndexTooLow <->
      Transfer.FromAccountIndex tx < MinAccountIndex + 1) /\
  (forall tx : Transfer.L2TransferTxInfo,
      Transfer.Validate tx = None ->
      Transfer.Validate (transfer_with_from tx (MinAccountIndex + 1)) = None /\
      Transfer.Validate (transfer_with_from tx MinAccountIndex) =
        Some ErrFromAccountIndexTooLow /\
      Transfer.Validate (transfer_with_to tx MinAccountIndex) = None /\
      Transfer.Validate (transfer_with_to tx (MinAccountIndex - 1)) =
        Some ErrToAccountIndexTooLow) /\
  (forall tx : Withdraw.L2WithdrawTxInfo,
      Withdraw.Validate tx = Some ErrFromAccountIndexTooLow <->
      Withdraw.FromAccountIndex tx < MinAccountIndex) /\
  (forall tx : Withdraw.L2WithdrawTxInfo,
      Withdraw.Validate tx = None ->
      Withdraw.Validate (withdraw_with_from tx MinAccountIndex) = None /\
      Withdraw.Validate (withdraw_with_from tx (MinAccountIndex - 1)) =
        Some ErrFromAccountIndexTooLow).
Proof.
  split; [|split; [|split]].
  - intros tx. split; intros Hx; run_validate.
  - intros tx Hx. split; [|split; [|split]]; run_validate.
  - intros tx. split; intros Hx; run_validate.
  - intros tx Hx. split; run_validate.
Qed.

End Validators.

(** ** The memo of the L1 body *)

Section HexFacts.

Lemma hex_nibbles (v : byte) :
  Hex.is_lower_hex (Hex.hextable_at (N.shiftr (Byte.to_N v) 4)) = true /\
  Hex.is_lower_hex (Hex.hextable_at (N.land (Byte.to_N v) 15)) = true.
Proof. destruct v; split; reflexivity. Qed.

Lemma encode_lower_hex (src : list byte) :
  Hex.all_lower_hex (Hex.Encode src) = true.
Proof.
  induction src as [|v src IH]; cbn [Hex.Encode Hex.all_lower_hex];
    [reflexivity|].
  destruct (hex_nibbles v) as [Hhi Hlo].
  now rewrite Hhi, Hlo, IH.
Qed.

Lemma encode_length (src : list byte) :
  String.length (Hex.Encode src) = (2 * List.length src)%nat.
Proof.
  induction src as [|v src IH]; cbn [Hex.Encode String.length List.length];
    [reflexivity|].
  rewrite IH. lia.
Qed.

Lemma all_lower_hex_app (a b : string) :
  Hex.all_lower_hex (a ++ b) = Hex.all_lower_hex a && Hex.all_lower_hex b.
Proof.
  induction a as [|c a IH]; simpl; [reflexivity|].
  now rewrite IH, andb_assoc.
Qed.

(** No string of hexadecimal digits starts with ["0x"]. *)
Lemma prefix_0x_lower_hex (s : string) :
  Hex.all_lower_hex s = true -> String.prefix "0x" s = false.
Proof.
  intros Hs. destruct s as [|c [|c' s]]; cbn [String.prefix];
    try reflexivity.
  - now destruct (ascii_dec "0" c).
  - destruct (ascii_dec "0" c); [|reflexivity].
    destruct (ascii_dec "x" c') as [<-|]; [|reflexivity].
    cbn [Hex.all_lower_hex] in Hs.
    rewrite !andb_true_iff in Hs. destruct Hs as (_ & Hx & _).
    discriminate Hx.
Qed.

Lemma all_lower_hex_tail (c : ascii) (s : string) :
  Hex.all_lower_hex (String c s) = true -> Hex.all_lower_hex s = true.
Proof. simpl. rewrite andb_true_iff. tauto. Qed.

Lemma index_0x_lower_hex (s : string) :
  Hex.all_lower_hex s = true -> Strings.Index s "0x" = -1.
Proof.
  induction s as [|c s IH]; intros Hs.
  - reflexivity.
  - unfold Strings.Index; fold Strings.Index.
    rewrite (prefix_0x_lower_hex _ Hs).
    rewrite (IH (all_lower_hex_tail _ _ Hs)). reflexivity.
Qed.

Lemma count_0x_lower_hex (s : string) :
  Hex.all_lower_hex s = true ->
  forall skip : nat, Strings.count_from skip s "0x" = 0.
Proof.
  induction s as [|c s IH]; intros Hs skip.
  - reflexivity.
  - unfold Strings.count_from; fold Strings.count_from.
    destruct skip as [|k].
    + rewrite (prefix_0x_lower_hex _ Hs).
      apply IH. exact (all_lower_hex_tail _ _ Hs).
    + apply IH. exact (all_lower_hex_tail _ _ Hs).
Qed.

Lemma replace_0x_lower_hex (s : string) :
  Hex.all_lower_hex s = true -> Strings.Replace s "0x" EmptyString 1 = s.
Proof.
  intros Hs. unfold Strings.Replace, Strings.Count.
  rewrite (count_0x_lower_hex s Hs 0%nat). reflexivity.
Qed.

Lemma unhex_byte (v : byte) :
  (16 * unhex (Hex.hextable_at (N.shiftr (Byte.to_N v) 4)) +
   unhex (Hex.hextable_at (N.land (Byte.to_N v) 15)))%N = Byte.to_N v.
Proof. destruct v; reflexivity. Qed.

Lemma unhex_pairs_encode (src : list byte) :
  unhex_pairs (Hex.Encode src) = map Byte.to_N src.
Proof.
  induction src as [|v src IH]; cbn [Hex.Encode unhex_pairs map];
    [reflexivity|].
  now rewrite unhex_byte, IH.
Qed.

Lemma hextable_digits (v : byte) :
  Hex.hextable_at (N.shiftr (Byte.to_N v) 4) = hex_digit (Byte.to_N v / 16) /\
  Hex.hextable_at (N.land (Byte.to_N v) 15) = hex_digit (Byte.to_N v mod 16).
Proof. destruct v; split; reflexivity. Qed.

Lemma encode_lower_hex_of_bytes (src : list byte) :
  Hex.Encode src = lower_hex_of_bytes src.
Proof.
  induction src as [|v src IH]; cbn [Hex.Encode lower_hex_of_bytes];
    [reflexivity|].
  destruct (hextable_digits v) as [Hhi Hlo].
  now rewrite Hhi, Hlo, IH.
Qed.

(** The two functions on small inputs: [Replace] does remove a ["0x"] when
    there is one, and only the first. *)
Example encode_bytes :
  Hex.EncodeToString [Byte.x00; Byte.xff; Byte.x0a; Byte.xb7] = "00ff0ab7"%string.
Proof. reflexivity. Qed.

Example replace_first_0x :
  Strings.Replace "0xab0xcd" "0x" EmptyString 1 = "ab0xcd"%string /\
  Strings.Replace "ab0xcd0x" "0x" EmptyString 1 = "abcd0x"%string /\
  Strings.Replace "ab0xcd0x" "0x" EmptyString (-1) = "abcd"%string /\
  Strings.Index "ab0xcd0x" "0x" = 2 /\
  Strings.Count "0x0x0" "0x" = 2.
Proof. repeat split; reflexivity. Qed.

End HexFacts.

Section L1Memo.
Context {fmt : L1Format}.

(** C10: the memo operand of the string built by [GetL1SignatureBody] is
    the lowercase hexadecimal encoding of the 32-byte memo: 64 characters,
    two per byte in the order of the bytes, the digit of the byte's value
    divided by 16 and then the digit of the remainder, written with
    [0-9a-f], so that reading the pairs back in base 16 gives the bytes;
    removing a literal ["0x"] leaves the encoding of any byte sequence as
    it is, since that encoding never contains ["0x"]. *)
Theorem l1_memo_token (txInfo : Transfer.L2TransferTxInfo) (chainId : Z) :
  let encoded := Hex.EncodeToString (Vector.to_list (Transfer.Memo txInfo)) in
  Transfer.hexMemo txInfo = encoded /\
  String.length encoded = 64%nat /\
  Hex.all_lower_hex encoded = true /\
  encoded = lower_hex_of_bytes (Vector.to_list (Transfer.Memo txInfo)) /\
  unhex_pairs encoded = map Byte.to_N (Vector.to_list (Transfer.Memo txInfo)) /\
  nth_error (Transfer.l1_operands txInfo chainId) 10 = Some encoded /\
  List.length (Transfer.l1_operands txInfo chainId) = 11%nat /\
  Transfer.GetL1SignatureBody txInfo chainId =
    Sprintf TemplateTransfer
      (firstn 10 (Transfer.l1_operands txInfo chainId) ++ [encoded]) /\
  (forall src : list byte,
      Strings.Replace (Hex.EncodeToString src) "0x" EmptyString 1 =
        Hex.EncodeToString src) /\
  (forall (src : list byte) (before after : string),
      Hex.EncodeToString src <> (before ++ "0x" ++ after)%string).
Proof.
  intros encoded.
  assert (E : Transfer.hexMemo txInfo = encoded).
  { unfold Transfer.hexMemo. apply replace_0x_lower_hex, encode_lower_hex. }
  split; [exact E|].
  split.
  { unfold encoded, Hex.EncodeToString.
    now rewrite encode_length, Vector.length_to_list. }
  split; [apply encode_lower_hex|].
  split; [apply encode_lower_hex_of_bytes|].
  split; [apply unhex_pairs_encode|].
  split; [simpl; now rewrite E|].
  split; [reflexivity|].
  split.
  { unfold Transfer.GetL1SignatureBody, Transfer.l1_operands.
    simpl. now rewrite E. }
  split.
  { intros src. apply replace_0x_lower_hex, encode_lower_hex. }
  intros src before after Heq.
  pose proof (encode_lower_hex src) as Hhex.
  unfold Hex.EncodeToString in Heq. rewrite Heq in Hhex.
  rewrite !all_lower_hex_app in Hhex.
  rewrite !andb_true_iff in Hhex. destruct Hhex as (_ & Hx & _).
  discriminate Hx.
Qed.

End L1Memo.

(** ** Domain separation

    What the builders contribute to domain separation, whatever the sponge
    is: the preimages of the two types never coincide, and equal digests
    exhibit a collision of the sponge. *)

Section DomainSeparation.
Context {consts : TxConstants} {field : Goldilocks} {sponge : @Poseidon2 field}.

Lemma type_tag_position
  (tx : Transfer.L2TransferTxInfo) (wx : Withdraw.L2WithdrawTxInfo) (c : Z) :
  nth_error (Transfer.preimage tx c) 1 = Some (FromUint32 TxTypeL2Transfer) /\
  nth_error (Withdraw.preimage wx c) 1 = Some (FromUint32 TxTypeL2Withdraw).
Proof. split; reflexivity. Qed.

Lemma transfer_withdraw_preimages_differ
  (tx : Transfer.L2TransferTxInfo) (wx : Withdraw.L2WithdrawTxInfo)
  (c c' : Z) :
  Transfer.preimage tx c <> Withdraw.preimage wx c'.
Proof.
  intros E. apply (f_equal (@List.length Element)) in E.
  discriminate E.
Qed.

Lemma chain_preimages_differ (tx : Transfer.L2TransferTxInfo) (c1 c2 : Z) :
  FromUint32 c1 <> FromUint32 c2 ->
  Transfer.preimage tx c1 <> Transfer.preimage tx c2.
Proof.
  intros Hc E. apply Hc.
  apply (f_equal (fun l => nth_error l 0)) in E.
  now injection E.
Qed.

Lemma equal_digests_collide
  (tx : Transfer.L2TransferTxInfo) (wx : Withdraw.L2WithdrawTxInfo)
  (c c' : Z) (extra extra' : list Element) :
  fst (Transfer.Hash tx c extra) = fst (Withdraw.Hash wx c' extra') ->
  exists l1 l2 : list Element,
    l1 <> l2 /\
    ToLittleEndianBytes (HashToQuinticExtension l1) =
      ToLittleEndianBytes (HashToQuinticExtension l2).
Proof.
  intros E. exists (Transfer.preimage tx c), (Withdraw.preimage wx c').
  split; [apply transfer_withdraw_preimages_differ | exact E].
Qed.

End DomainSeparation.

(** ** The theorems at concrete transactions *)

Lemma transfer_hash_preimage_sample :
  @Transfer.preimage sample_constants sample_field
    sample_transfer 304 =
    [304; 12; 4; 1000; 7; 3; 0; 2; 0; 1; 5; 1; 9; 0].
Proof.
  exact (proj1 (@transfer_hash_preimage sample_constants sample_field
                  sample_sponge sample_transfer 304 [])).
Defined.

Lemma withdraw_hash_preimage_sample :
  @Withdraw.preimage sample_constants sample_field
    sample_withdraw 304 =
    [304; 13; 4; 1000; 0; 3; 2; 1; 5; 1].
Proof.
  exact (proj1 (@withdraw_hash_preimage sample_constants sample_field
                  sample_sponge sample_withdraw 304 [])).
Defined.

Lemma transfer_amount_bounds_sample :
  (forall a : Z,
      @transfer_others_valid sample_constants
        (transfer_with_amount sample_transfer a)) /\
  @Transfer.Validate sample_constants (transfer_with_amount sample_transfer 0) =
    Some ErrTransferAmountTooLow /\
  @Transfer.Validate sample_constants
    (transfer_with_amount sample_transfer (2 ^ 60)) =
    Some ErrTransferAmountTooHigh /\
  @Transfer.Validate sample_constants
    (transfer_with_amount sample_transfer (2 ^ 60 - 1)) = None /\
  @Transfer.Validate sample_constants sample_transfer = None.
Proof.
  assert (Hv : forall a,
    @transfer_others_valid sample_constants (transfer_with_amount sample_transfer a)).
  { intros a. unfold transfer_others_valid, defined_route. simpl. lia. }
  split; [exact Hv|].
  split; [|split; [|split]].
  - apply (proj1 (@transfer_amount_bounds sample_constants _ (Hv 0))).
    reflexivity.
  - apply (proj1 (proj2 (@transfer_amount_bounds sample_constants _ (Hv (2 ^ 60))))).
    reflexivity.
  - apply (proj2 (proj2 (@transfer_amount_bounds sample_constants _ (Hv (2 ^ 60 - 1))))).
    simpl. lia.
  - apply (proj2 (proj2 (@transfer_amount_bounds sample_constants _ (Hv (2 ^ 32 + 5))))).
    simpl. lia.
Defined.

Lemma withdraw_route_enumeration_sample :
  (forall r : Z,
      @withdraw_others_valid sample_constants
        (withdraw_with_route sample_withdraw r)) /\
  @Withdraw.Validate sample_constants (withdraw_with_route sample_withdraw 0) = None /\
  @Withdraw.Validate sample_constants (withdraw_with_route sample_withdraw 1) = None /\
  @Withdraw.Validate sample_constants (withdraw_with_route sample_withdraw 2) =
    Some ErrRouteTypeInvalid.
Proof.
  assert (Hv : forall r,
    @withdraw_others_valid sample_constants (withdraw_with_route sample_withdraw r)).
  { intros r. unfold withdraw_others_valid. simpl. lia. }
  split; [exact Hv|].
  split; [|split].
  - apply (proj2 (@withdraw_route_enumeration sample_constants _ (Hv 0))).
    left. reflexivity.
  - apply (proj2 (@withdraw_route_enumeration sample_constants _ (Hv 1))).
    right. reflexivity.
  - apply (proj1 (@withdraw_route_enumeration sample_constants _ (Hv 2))).
    simpl. lia.
Defined.

Lemma sender_minimum_asymmetry_sample :
  @Transfer.Validate sample_constants (transfer_with_from sample_transfer 1) = None /\
  @Transfer.Validate sample_constants (transfer_with_from sample_transfer 0) =
    Some ErrFromAccountIndexTooLow /\
  @Transfer.Validate sample_constants (transfer_with_to sample_transfer 0) = None /\
  @Withdraw.Validate sample_constants (withdraw_with_from sample_withdraw 0) = None.
Proof.
  pose proof (@sender_minimum_asymmetry sample_constants) as (_ & Ht & _ & Hw).
  destruct (Ht sample_transfer eq_refl) as (H1 & H2 & H3 & _).
  destruct (Hw sample_withdraw eq_refl) as (H4 & _).
  exact (conj H1 (conj H2 (conj H3 H4))).
Defined.

Lemma limb_split_roundtrip_sample :
  GoInt.is_uint 64 (2 ^ 64 - 1) /\
  GoInt.join32 (GoInt.and_mask32 0) (GoInt.shr32 0) = 0 /\
  GoInt.join32 (GoInt.and_mask32 1) (GoInt.shr32 1) = 1 /\
  GoInt.join32 (GoInt.and_mask32 (2 ^ 32 - 1)) (GoInt.shr32 (2 ^ 32 - 1)) =
    2 ^ 32 - 1 /\
  GoInt.join32 (GoInt.and_mask32 (2 ^ 32)) (GoInt.shr32 (2 ^ 32)) = 2 ^ 32 /\
  GoInt.join32 (GoInt.and_mask32 (2 ^ 64 - 1)) (GoInt.shr32 (2 ^ 64 - 1)) =
    2 ^ 64 - 1.
Proof.
  assert (R : forall v, GoInt.is_uint 64 v ->
            GoInt.join32 (GoInt.and_mask32 v) (GoInt.shr32 v) = v).
  { intros v Hv.
    exact (proj1 (proj2 (proj2 (proj2
      (@limb_split_roundtrip sample_constants sample_field v Hv))))). }
  split; [unfold GoInt.is_uint; lia|].
  repeat split; apply R; unfold GoInt.is_uint; lia.
Defined.

Lemma hash_reads_hashed_fields_sample :
  @Transfer.Hash sample_constants sample_field sample_sponge
    sample_transfer 304 [] =
  @Transfer.Hash sample_constants sample_field sample_sponge
    (transfer_with_memo sample_transfer sample_memo) 304 [7].
Proof.
  apply (proj1 (@hash_reads_hashed_fields sample_constants sample_field
                  sample_sponge));
    reflexivity.
Defined.

Lemma hash_error_is_nil_sample :
  snd (@Transfer.Hash sample_constants sample_field sample_sponge
         (transfer_with_amount sample_transfer (-1)) 304 []) = None /\
  snd (@Withdraw.Hash sample_constants sample_field sample_sponge
         (withdraw_with_route sample_withdraw 9) 304 []) = None.
Proof.
  split.
  - apply (proj1 (@hash_error_is_nil sample_constants sample_field sample_sponge)).
  - apply (proj2 (@hash_error_is_nil sample_constants sample_field sample_sponge)).
Defined.

Lemma l1_memo_token_sample :
  Transfer.hexMemo (transfer_with_memo sample_transfer sample_memo) =
    "deadbeef00010a107f809cff30780ff0123456789abcdef02bc45de66996a55a"%string /\
  nth_error
    (@Transfer.l1_operands sample_format
       (transfer_with_memo sample_transfer sample_memo) 304) 10 =
    Some "deadbeef00010a107f809cff30780ff0123456789abcdef02bc45de66996a55a"%string.
Proof.
  pose proof (@l1_memo_token sample_format
                (transfer_with_memo sample_transfer sample_memo) 304)
    as (Htoken & _ & _ & _ & _ & Hoperand & _).
  split; [exact Htoken | exact Hoperand].
Defined.

(** ** The validators, check by check *)

Section ValidatorTables.
Context {consts : TxConstants}.

(** X1: the transfer validator returns no error exactly when every field is
    within its bounds. *)
Theorem transfer_validate_accepts_iff (tx : Transfer.L2TransferTxInfo) :
  Transfer.Validate tx = None <-> transfer_valid tx.
Proof. split; intros Hx; run_checks. Qed.

(** X2: the withdrawal validator returns no error exactly when every field
    is within its bounds. *)
Theorem withdraw_validate_accepts_iff (tx : Withdraw.L2WithdrawTxInfo) :
  Withdraw.Validate tx = None <-> withdraw_valid tx.
Proof. split; intros Hx; run_checks. Qed.

(** X3: the transfer validator reports an account, key or asset index
    error exactly when that check is the first one to fail: the sender
    before the key, the key before the recipient, the recipient before the
    asset, and for each the lower bound before the upper one. *)
Theorem transfer_index_errors (tx : Transfer.L2TransferTxInfo) :
  let from_ok :=
    MinAccountIndex + 1 <= Transfer.FromAccountIndex tx <= MaxAccountIndex in
  let key_ok := MinApiKeyIndex <= Transfer.ApiKeyIndex tx <= MaxApiKeyIndex in
  let to_ok :=
    MinAccountIndex <= Transfer.ToAccountIndex tx <= MaxAccountIndex in
  (Transfer.Validate tx = Some ErrFromAccountIndexTooLow <->
     Transfer.FromAccountIndex tx < MinAccountIndex + 1) /\
  (Transfer.Validate tx = Some ErrFromAccountIndexTooHigh <->
     MinAccountIndex + 1 <= Transfer.FromAccountIndex tx /\
     MaxAccountIndex < Transfer.FromAccountIndex tx) /\
  (Transfer.Validate tx = Some ErrApiKeyIndexTooLow <->
     from_ok /\ Transfer.ApiKeyIndex tx < MinApiKeyIndex) /\
  (Transfer.Validate tx = Some ErrApiKeyIndexTooHigh <->
     from_ok /\ MinApiKeyIndex <= Transfer.ApiKeyIndex tx /\
     MaxApiKeyIndex < Transfer.ApiKeyIndex tx) /\
  (Transfer.Validate tx = Some ErrToAccountIndexTooLow <->
     from_ok /\ key_ok /\ Transfer.ToAccountIndex tx < MinAccountIndex) /\
  (Transfer.Validate tx = Some ErrToAccountIndexTooHigh <->
     from_ok /\ key_ok /\ MinAccountIndex <= Transfer.ToAccountIndex tx /\
     MaxAccountIndex < Transfer.ToAccountIndex tx) /\
  (Transfer.Validate tx = Some ErrAssetIndexTooLow <->
     from_ok /\ key_ok /\ to_ok /\ Transfer.AssetIndex tx < MinAssetIndex) /\
  (Transfer.Validate tx = Some ErrAssetIndexTooHigh <->
     from_ok /\ key_ok /\ to_ok /\ MinAssetIndex <= Transfer.AssetIndex tx /\
     MaxAssetIndex < Transfer.AssetIndex tx).
Proof.
  intros from_ok key_ok to_ok. subst from_ok key_ok to_ok.
  repeat apply conj; intros Hx; run_checks.
Qed.

(** X4: once the indices are within bounds, the transfer validator reports
    the route error exactly when the sender route or the recipient route is
    not a defined one (the same error for both), then the amount errors
    (a negative amount is too low, like zero), then the fee errors (a zero
    fee is accepted, and the fee shares the upper bound of the amount). *)
Theorem transfer_route_amount_fee_errors (tx : Transfer.L2TransferTxInfo) :
  (Transfer.Validate tx = Some ErrRouteTypeInvalid <->
     transfer_indices_ok tx /\ ~ transfer_routes_ok tx) /\
  (Transfer.Validate tx = Some ErrTransferAmountTooLow <->
     transfer_indices_ok tx /\ transfer_routes_ok tx /\
     Transfer.Amount tx <= 0) /\
  (Transfer.Validate tx = Some ErrTransferAmountTooHigh <->
     transfer_indices_ok tx /\ transfer_routes_ok tx /\
     0 < Transfer.Amount tx /\ MaxTransferAmount < Transfer.Amount tx) /\
  (Transfer.Validate tx = Some ErrTransferFeeNegative <->
     transfer_indices_ok tx /\ transfer_routes_ok tx /\
     transfer_amount_ok tx /\ Transfer.USDCFee tx < 0) /\
  (Transfer.Validate tx = Some ErrTransferFeeTooHigh <->
     transfer_indices_ok tx /\ transfer_routes_ok tx /\
     transfer_amount_ok tx /\
     0 <= Transfer.USDCFee tx /\ MaxTransferAmount < Transfer.USDCFee tx).
Proof.
  repeat apply conj; intros Hx; run_checks.
Qed.

(** X5: the transfer validator checks the nonce and the expiry last: a
    nonce below [MinNonce] is reported only when everything before it is
    within bounds, and an expiry outside [[0, MaxTimestamp]] only when
    everything else is; the nonce has no upper bound. *)
Theorem transfer_nonce_expiry_errors (tx : Transfer.L2TransferTxInfo) :
  let before :=
    transfer_indices_ok tx /\ transfer_routes_ok tx /\
    transfer_amount_ok tx /\ transfer_fee_ok tx in
  (Transfer.Validate tx = Some ErrNonceTooLow <->
     before /\ Transfer.Nonce tx < MinNonce) /\
  (Transfer.Validate tx = Some ErrExpiredAtInvalid <->
     before /\ MinNonce <= Transfer.Nonce tx /\
     (Transfer.ExpiredAt tx < 0 \/ MaxTimestamp < Transfer.ExpiredAt tx)).
Proof.
  intros before. subst before.
  repeat apply conj; intros Hx; run_checks.
Qed.

(** X6: the withdrawal validator reports each of its errors exactly when
    that check is the first one to fail, in the order sender, key, asset,
    route, amount, nonce, expiry; an amount is too low only when it is
    zero. *)
Theorem withdraw_validate_errors (tx : Withdraw.L2WithdrawTxInfo) :
  let from_ok :=
    MinAccountIndex <= Withdraw.FromAccountIndex tx <= MaxAccountIndex in
  let key_ok := MinApiKeyIndex <= Withdraw.ApiKeyIndex tx <= MaxApiKeyIndex in
  let routed := withdraw_indices_ok tx /\ defined_route (Withdraw.RouteType tx) in
  (Withdraw.Validate tx = Some ErrFromAccountIndexTooLow <->
     Withdraw.FromAccountIndex tx < MinAccountIndex) /\
  (Withdraw.Validate tx = Some ErrFromAccountIndexTooHigh <->
     MinAccountIndex <= Withdraw.FromAccountIndex tx /\
     MaxAccountIndex < Withdraw.FromAccountIndex tx) /\
  (Withdraw.Validate tx = Some ErrApiKeyIndexTooLow <->
     from_ok /\ Withdraw.ApiKeyIndex tx < MinApiKeyIndex) /\
  (Withdraw.Validate tx = Some ErrApiKeyIndexTooHigh <->
     from_ok /\ MinApiKeyIndex <= Withdraw.ApiKeyIndex tx /\
     MaxApiKeyIndex < Withdraw.ApiKeyIndex tx) /\
  (Withdraw.Validate tx = Some ErrAssetIndexTooLow <->
     from_ok /\ key_ok /\ Withdraw.AssetIndex tx < MinAssetIndex) /\
  (Withdraw.Validate tx = Some ErrAssetIndexTooHigh <->
     from_ok /\ key_ok /\ MinAssetIndex <= Withdraw.AssetIndex tx /\
     MaxAssetIndex < Withdraw.AssetIndex tx) /\
  (Withdraw.Validate tx = Some ErrRouteTypeInvalid <->
     withdraw_indices_ok tx /\ ~ defined_route (Withdraw.RouteType tx)) /\
  (Withdraw.Validate tx = Some ErrWithdrawalAmountTooLow <->
     routed /\ Withdraw.Amount tx = 0) /\
  (Withdraw.Validate tx = Some ErrWithdrawalAmountTooHigh <->
     routed /\ Withdraw.Amount tx <> 0 /\
     MaxWithdrawalAmount < Withdraw.Amount tx) /\
  (Withdraw.Validate tx = Some ErrNonceTooLow <->
     routed /\ withdraw_amount_ok tx /\ Withdraw.Nonce tx < MinNonce) /\
  (Withdraw.Validate tx = Some ErrExpiredAtInvalid <->
     routed /\ withdraw_amount_ok tx /\ MinNonce <= Withdraw.Nonce tx /\
     (Withdraw.ExpiredAt tx < 0 \/ MaxTimestamp < Withdraw.ExpiredAt tx)).
Proof.
  intros from_ok key_ok routed. subst from_ok key_ok routed.
  repeat apply conj; intros Hx; run_checks.
Qed.

(** X7: neither validator returns an error of the other transaction type:
    a transfer never gets a withdrawal-amount error, a withdrawal never
    gets a recipient, transfer-amount or fee error. *)
Theorem validate_errors_of_own_type :
  (forall (tx : Transfer.L2TransferTxInfo) (e : error),
      Transfer.Validate tx = Some e ->
      e <> ErrWithdrawalAmountTooLow /\ e <> ErrWithdrawalAmountTooHigh) /\
  (forall (tx : Withdraw.L2WithdrawTxInfo) (e : error),
      Withdraw.Validate tx = Some e ->
      e <> ErrToAccountIndexTooLow /\ e <> ErrToAccountIndexTooHigh /\
      e <> ErrTransferAmountTooLow /\ e <> ErrTransferAmountTooHigh /\
      e <> ErrTransferFeeNegative /\ e <> ErrTransferFeeTooHigh).
Proof.
  split; intros tx e Hx.
  - unfold Transfer.Validate in Hx.
    repeat match type of Hx with
           | (if ?b then _ else _) = _ => destruct b
           end;
      try discriminate Hx; injection Hx as <-; split; discriminate.
  - unfold Withdraw.Validate in Hx.
    repeat match type of Hx with
           | (if ?b then _ else _) = _ => destruct b
           end;
      try discriminate Hx; injection Hx as <-; repeat split; discriminate.
Qed.

(** X8: the validators read the numeric fields only: transactions that
    agree on them get the same verdict, whatever their memo, signatures and
    signed hash are. *)
Theorem validate_reads_numeric_fields :
  (forall tx1 tx2 : Transfer.L2TransferTxInfo,
      transfer_hashed_fields tx1 = transfer_hashed_fields tx2 ->
      Transfer.Validate tx1 = Transfer.Validate tx2) /\
  (forall tx1 tx2 : Withdraw.L2WithdrawTxInfo,
      withdraw_hashed_fields tx1 = withdraw_hashed_fields tx2 ->
      Withdraw.Validate tx1 = Withdraw.Validate tx2).
Proof.
  split; intros tx1 tx2 Ef.
  - unfold transfer_hashed_fields in Ef.
    injection Ef as E1 E2 E3 E4 E5 E6 E7 E8 E9 E10.
    unfold Transfer.Validate.
    now rewrite E1, E2, E3, E4, E5, E6, E7, E8, E9, E10.
  - unfold withdraw_hashed_fields in Ef.
    injection Ef as E1 E2 E3 E4 E5 E6 E7.
    unfold Withdraw.Validate.
    now rewrite E1, E2, E3, E4, E5, E6, E7.
Qed.

End ValidatorTables.

(** ** Validation followed by hashing *)

Section ValidatedHash.
Context {consts : TxConstants} {field : Goldilocks}.

Lemma transfer_accepted_bounds (tx : Transfer.L2TransferTxInfo) :
  Transfer.Validate tx = None -> transfer_valid tx.
Proof. intros Hx; run_checks. Qed.

Lemma withdraw_accepted_bounds (tx : Withdraw.L2WithdrawTxInfo) :
  Withdraw.Validate tx = None -> withdraw_valid tx.
Proof. intros Hx; run_checks. Qed.

Lemma transfer_preimage_plain (tx : Transfer.L2TransferTxInfo) (c : Z) :
  0 <= MinAssetIndex ->
  Transfer.well_typed tx ->
  Transfer.Validate tx = None ->
  Transfer.preimage tx c =
    [ FromUint32 c;
      FromUint32 TxTypeL2Transfer;
      FromInt64 (Transfer.Nonce tx);
      FromInt64 (Transfer.ExpiredAt tx);
      FromInt64 (Transfer.FromAccountIndex tx);
      FromUint32 (Transfer.ApiKeyIndex tx);
      FromInt64 (Transfer.ToAccountIndex tx);
      FromUint32 (Transfer.AssetIndex tx);
      FromUint32 (Transfer.FromRouteType tx);
      FromUint32 (Transfer.ToRouteType tx);
      FromUint64 (Transfer.Amount tx mod 2 ^ 32);
      FromUint64 (Transfer.Amount tx / 2 ^ 32);
      FromUint64 (Transfer.USDCFee tx mod 2 ^ 32);
      FromUint64 (Transfer.USDCFee tx / 2 ^ 32) ].
Proof.
  intros Hmin Hwt Hok. apply transfer_accepted_bounds in Hok.
  unfold transfer_valid, transfer_indices_ok, transfer_amount_ok,
    transfer_fee_ok in Hok.
  apply transfer_preimage_well_typed; [exact Hwt | lia | lia | lia].
Qed.

Lemma withdraw_preimage_plain (tx : Withdraw.L2WithdrawTxInfo) (c : Z) :
  0 <= MinAssetIndex ->
  Withdraw.well_typed tx ->
  Withdraw.Validate tx = None ->
  Withdraw.preimage tx c =
    [ FromUint32 c;
      FromUint32 TxTypeL2Withdraw;
      FromInt64 (Withdraw.Nonce tx);
      FromInt64 (Withdraw.ExpiredAt tx);
      FromInt64 (Withdraw.FromAccountIndex tx);
      FromUint32 (Withdraw.ApiKeyIndex tx);
      FromUint32 (Withdraw.AssetIndex tx);
      FromUint32 (Withdraw.RouteType tx);
      FromUint64 (Withdraw.Amount tx mod 2 ^ 32);
      FromUint64 (Withdraw.Amount tx / 2 ^ 32) ].
Proof.
  intros Hmin Hwt Hok. apply withdraw_accepted_bounds in Hok.
  destruct Hwt as (_ & Hk & Hi & Hr & Ha & _).
  unfold withdraw_valid, withdraw_indices_ok in Hok.
  pose proof (limb_lo_range (Withdraw.Amount tx)) as Hlo.
  pose proof (limb_hi_range _ Ha) as Hhi.
  unfold GoInt.is_uint, GoInt.is_int in *.
  unfold Withdraw.preimage, append, make. cbn [app].
  rewrite !uint32_id by (unfold GoInt.is_uint; lia).
  rewrite !uint64_id by (unfold GoInt.is_uint; lia).
  now rewrite and_mask32_mod, shr32_div.
Qed.

Lemma high_limb_bound (a m : Z) :
  0 <= a <= m -> 0 <= a / 2 ^ 32 <= m / 2 ^ 32.
Proof.
  intros [Ha Hm]. split.
  - apply Z.div_pos; lia.
  - apply Z.div_le_mono; lia.
Qed.

Lemma limbs_determine (a b : Z) :
  a mod 2 ^ 32 = b mod 2 ^ 32 -> a / 2 ^ 32 = b / 2 ^ 32 -> a = b.
Proof.
  intros Hm Hd.
  rewrite (Z.div_mod a (2 ^ 32)), (Z.div_mod b (2 ^ 32)) by lia.
  now rewrite Hm, Hd.
Qed.

(** X9: a well-typed transfer that [Validate] accepts is hashed without
    any wrap-around, provided the least asset index is not negative: every
    element of the preimage holds the number of its field, the amount and
    the fee enter as remainder and quotient by [2^32], and the two high
    limbs are at most [MaxTransferAmount / 2^32]. *)
Theorem validated_transfer_preimage (tx : Transfer.L2TransferTxInfo) (c : Z) :
  0 <= MinAssetIndex ->
  Transfer.well_typed tx ->
  Transfer.Validate tx = None ->
  Transfer.preimage tx c =
    [ FromUint32 c;
      FromUint32 TxTypeL2Transfer;
      FromInt64 (Transfer.Nonce tx);
      FromInt64 (Transfer.ExpiredAt tx);
      FromInt64 (Transfer.FromAccountIndex tx);
      FromUint32 (Transfer.ApiKeyIndex tx);
      FromInt64 (Transfer.ToAccountIndex tx);
      FromUint32 (Transfer.AssetIndex tx);
      FromUint32 (Transfer.FromRouteType tx);
      FromUint32 (Transfer.ToRouteType tx);
      FromUint64 (Transfer.Amount tx mod 2 ^ 32);
      FromUint64 (Transfer.Amount tx / 2 ^ 32);
      FromUint64 (Transfer.USDCFee tx mod 2 ^ 32);
      FromUint64 (Transfer.USDCFee tx / 2 ^ 32) ] /\
  0 <= Transfer.Amount tx / 2 ^ 32 <= MaxTransferAmount / 2 ^ 32 /\
  0 <= Transfer.USDCFee tx / 2 ^ 32 <= MaxTransferAmount / 2 ^ 32.
Proof.
  intros Hmin Hwt Hok.
  split; [now apply transfer_preimage_plain|].
  apply transfer_accepted_bounds in Hok.
  unfold transfer_valid, transfer_amount_ok, transfer_fee_ok in Hok.
  split; apply high_limb_bound; lia.
Qed.

(** X10: a well-typed withdrawal that [Validate] accepts is hashed without
    any wrap-around, provided the least asset index is not negative; the
    high limb of the amount is at most [MaxWithdrawalAmount / 2^32]. *)
Theorem validated_withdraw_preimage (tx : Withdraw.L2WithdrawTxInfo) (c : Z) :
  0 <= MinAssetIndex ->
  Withdraw.well_typed tx ->
  Withdraw.Validate tx = None ->
  Withdraw.preimage tx c =
    [ FromUint32 c;
      FromUint32 TxTypeL2Withdraw;
      FromInt64 (Withdraw.Nonce tx);
      FromInt64 (Withdraw.ExpiredAt tx);
      FromInt64 (Withdraw.FromAccountIndex tx);
      FromUint32 (Withdraw.ApiKeyIndex tx);
      FromUint32 (Withdraw.AssetIndex tx);
      FromUint32 (Withdraw.RouteType tx);
      FromUint64 (Withdraw.Amount tx mod 2 ^ 32);
      FromUint64 (Withdraw.Amount tx / 2 ^ 32) ] /\
  0 <= Withdraw.Amount tx / 2 ^ 32 <= MaxWithdrawalAmount / 2 ^ 32.
Proof.
  intros Hmin Hwt Hok.
  split; [now apply withdraw_preimage_plain|].
  apply withdraw_accepted_bounds in Hok.
  destruct Hwt as (_ & _ & _ & _ & Ha & _).
  unfold withdraw_valid, withdraw_amount_ok in Hok.
  unfold GoInt.is_uint in Ha.
  apply high_limb_bound; lia.
Qed.

End ValidatedHash.

(** ** The preimage determines the transaction *)

Section PreimageInjective.
Context {consts : TxConstants} {field : Goldilocks}.

(** X11: two accepted, well-typed transfers with the same preimage have the
    same chain id and the same hashed fields, when the lower bounds are not
    negative and the field injections tell apart the values below [2^32]
    (for [FromUint32] and the limbs) and below [2^63] (for [FromInt64]). *)
Theorem transfer_preimage_injective
  (tx1 tx2 : Transfer.L2TransferTxInfo) (c1 c2 : Z) :
  nonneg_minima -> separating_field ->
  Transfer.well_typed tx1 -> Transfer.well_typed tx2 ->
  GoInt.is_uint 32 c1 -> GoInt.is_uint 32 c2 ->
  Transfer.Validate tx1 = None -> Transfer.Validate tx2 = None ->
  Transfer.preimage tx1 c1 = Transfer.preimage tx2 c2 ->
  c1 = c2 /\ transfer_hashed_fields tx1 = transfer_hashed_fields tx2.
Proof.
  intros (Hacc & Hasset & Hnonce) (I32 & I64 & IL) Hw1 Hw2 Hc1 Hc2 Hv1 Hv2 E.
  rewrite (transfer_preimage_plain tx1 c1 Hasset Hw1 Hv1) in E.
  rewrite (transfer_preimage_plain tx2 c2 Hasset Hw2 Hv2) in E.
  apply transfer_accepted_bounds in Hv1, Hv2.
  unfold transfer_valid, transfer_indices_ok, transfer_amount_ok,
    transfer_fee_ok in Hv1, Hv2.
  destruct Hw1 as (? & ? & ? & ? & ? & ? & ? & ? & ? & ?).
  destruct Hw2 as (? & ? & ? & ? & ? & ? & ? & ? & ? & ?).
  unfold GoInt.is_uint, GoInt.is_int in *.
  injection E as Ec En Ee Ef Ek Et Ea Efr Etr Eal Eah Efl Efh.
  apply I32 in Ec, Ek, Ea, Efr, Etr; try lia.
  apply I64 in En, Ee, Ef, Et; try lia.
  assert (Hlimb : forall a, 0 <= a < 2 ^ (64 - 1) ->
            0 <= a mod 2 ^ 32 < 2 ^ 32 /\ 0 <= a / 2 ^ 32 < 2 ^ 32).
  { intros a Ha. split; [apply Z.mod_pos_bound; lia|]. split.
    - apply Z.div_pos; lia.
    - apply Z.div_lt_upper_bound; lia. }
  pose proof (Hlimb (Transfer.Amount tx1)) as A1.
  pose proof (Hlimb (Transfer.Amount tx2)) as A2.
  pose proof (Hlimb (Transfer.USDCFee tx1)) as F1.
  pose proof (Hlimb (Transfer.USDCFee tx2)) as F2.
  apply IL in Eal, Eah, Efl, Efh; try lia.
  pose proof (limbs_determine _ _ Eal Eah) as Eamt.
  pose proof (limbs_determine _ _ Efl Efh) as Efee.
  split; [exact Ec|].
  unfold transfer_hashed_fields. congruence.
Qed.

(** X12: two accepted, well-typed withdrawals with the same preimage have
    the same chain id and the same hashed fields, under the same conditions
    on the lower bounds and the field injections. *)
Theorem withdraw_preimage_injective
  (tx1 tx2 : Withdraw.L2WithdrawTxInfo) (c1 c2 : Z) :
  nonneg_minima -> separating_field ->
  Withdraw.well_typed tx1 -> Withdraw.well_typed tx2 ->
  GoInt.is_uint 32 c1 -> GoInt.is_uint 32 c2 ->
  Withdraw.Validate tx1 = None -> Withdraw.Validate tx2 = None ->
  Withdraw.preimage tx1 c1 = Withdraw.preimage tx2 c2 ->
  c1 = c2 /\ withdraw_hashed_fields tx1 = withdraw_hashed_fields tx2.
Proof.
  intros (Hacc & Hasset & Hnonce) (I32 & I64 & IL) Hw1 Hw2 Hc1 Hc2 Hv1 Hv2 E.
  rewrite (withdraw_preimage_plain tx1 c1 Hasset Hw1 Hv1) in E.
  rewrite (withdraw_preimage_plain tx2 c2 Hasset Hw2 Hv2) in E.
  apply withdraw_accepted_bounds in Hv1, Hv2.
  unfold withdraw_valid, withdraw_indices_ok, withdraw_amount_ok in Hv1, Hv2.
  destruct Hw1 as (? & ? & ? & ? & ? & ? & ?).
  destruct Hw2 as (? & ? & ? & ? & ? & ? & ?).
  unfold GoInt.is_uint, GoInt.is_int in *.
  injection E as Ec En Ee Ef Ek Ea Er Eal Eah.
  apply I32 in Ec, Ek, Ea, Er; try lia.
  apply I64 in En, Ee, Ef; try lia.
  assert (Hlimb : forall a, 0 <= a < 2 ^ 64 ->
            0 <= a mod 2 ^ 32 < 2 ^ 32 /\ 0 <= a / 2 ^ 32 < 2 ^ 32).
  { intros a Ha. split; [apply Z.mod_pos_bound; lia|]. split.
    - apply Z.div_pos; lia.
    - apply Z.div_lt_upper_bound; lia. }
  pose proof (Hlimb (Withdraw.Amount tx1)) as A1.
  pose proof (Hlimb (Withdraw.Amount tx2)) as A2.
  apply IL in Eal, Eah; try lia.
  pose proof (limbs_determine _ _ Eal Eah) as Eamt.
  split; [exact Ec|].
  unfold withdraw_hashed_fields. congruence.
Qed.

(** X13: the limbs that [Hash] takes from a signed 64-bit amount or fee
    determine it, negative values included: two [int64] values whose
    unsigned bit patterns have the same low and high limb are equal. *)
Theorem signed_limbs_injective (a b : Z) :
  GoInt.is_int 64 a -> GoInt.is_int 64 b ->
  GoInt.and_mask32 (GoInt.uint64 a) = GoInt.and_mask32 (GoInt.uint64 b) ->
  GoInt.shr32 (GoInt.uint64 a) = GoInt.shr32 (GoInt.uint64 b) ->
  a = b.
Proof.
  unfold GoInt.is_int. intros Ha Hb Elo Ehi.
  rewrite !and_mask32_mod in Elo. rewrite !shr32_div in Ehi.
  pose proof (limbs_determine _ _ Elo Ehi) as E.
  unfold GoInt.uint64 in E.
  assert (W : forall x, - 2 ^ (64 - 1) <= x < 2 ^ (64 - 1) ->
            x mod 2 ^ 64 = if x <? 0 then x + 2 ^ 64 else x).
  { intros x Hx. destruct (x <? 0) eqn:Hs.
    - apply Z.ltb_lt in Hs. symmetry. apply (Z.mod_unique_pos _ _ (-1)); lia.
    - apply Z.ltb_ge in Hs. apply Z.mod_small. lia. }
  rewrite (W a Ha), (W b Hb) in E.
  destruct (a <? 0) eqn:Sa, (b <? 0) eqn:Sb;
    rewrite ?Z.ltb_lt, ?Z.ltb_ge in *; lia.
Qed.

End PreimageInjective.

(** ** The L1 body and the transaction it comes from *)

Section HexInjective.

Lemma byte_to_N_inj (v w : byte) : Byte.to_N v = Byte.to_N w -> v = w.
Proof.
  intros E. apply (f_equal Byte.of_N) in E.
  rewrite !Byte.of_to_N in E. now injection E.
Qed.

Lemma map_to_N_inj (a b : list byte) :
  map Byte.to_N a = map Byte.to_N b -> a = b.
Proof.
  revert b. induction a as [|v a IH]; intros [|w b] E;
    try discriminate E; [reflexivity|].
  cbn [map] in E. injection E as Ev Eab.
  f_equal; [now apply byte_to_N_inj | now apply IH].
Qed.

Lemma encode_inj (a b : list byte) : Hex.Encode a = Hex.Encode b -> a = b.
Proof.
  intros E. apply map_to_N_inj.
  now rewrite <- !unhex_pairs_encode, E.
Qed.

(** X14: the memo token of the L1 body determines the memo, and
    [hex.EncodeToString] tells apart any two byte sequences, of whatever
    lengths. *)
Theorem hex_memo_injective :
  (forall a b : list byte,
      Hex.EncodeToString a = Hex.EncodeToString b -> a = b) /\
  (forall tx1 tx2 : Transfer.L2TransferTxInfo,
      Transfer.hexMemo tx1 = Transfer.hexMemo tx2 ->
      Transfer.Memo tx1 = Transfer.Memo tx2).
Proof.
  split.
  - intros a b. apply encode_inj.
  - intros tx1 tx2 E. unfold Transfer.hexMemo in E.
    rewrite !replace_0x_lower_hex in E by apply encode_lower_hex.
    apply Vector.to_list_inj, encode_inj. exact E.
Qed.

End HexInjective.

Section L1Body.
Context {consts : TxConstants} {fmt : L1Format} {recover : L1Recover}.

(** X15: the L1 body is built from the nonce, the two accounts, the two
    routes, the key, the asset, the amount, the fee, the chain id and the
    memo only: transfers that agree on these have the same body for a chain
    id, whatever their expiry, signatures and signed hash, and with the
    same L1 signature the same recovered address. *)
Theorem l1_body_reads_l1_fields
  (tx1 tx2 : Transfer.L2TransferTxInfo) (chainId : Z) :
  transfer_l1_fields tx1 = transfer_l1_fields tx2 ->
  Transfer.GetL1SignatureBody tx1 chainId =
    Transfer.GetL1SignatureBody tx2 chainId /\
  (Transfer.L1Sig tx1 = Transfer.L1Sig tx2 ->
   TransferL1.GetL1AddressBySignature tx1 chainId =
     TransferL1.GetL1AddressBySignature tx2 chainId).
Proof.
  intros Ef. unfold transfer_l1_fields in Ef.
  injection Ef as E1 E2 E3 E4 E5 E6 E7 E8 E9 Em.
  assert (Eb : Transfer.GetL1SignatureBody tx1 chainId =
               Transfer.GetL1SignatureBody tx2 chainId).
  { unfold Transfer.GetL1SignatureBody, Transfer.l1_operands, Transfer.hexMemo.
    now rewrite E1, E2, E3, E4, E5, E6, E7, E8, E9, Em. }
  split; [exact Eb|].
  intros Es. unfold TransferL1.GetL1AddressBySignature. now rewrite Eb, Es.
Qed.

(** X16: for a well-typed transfer that [Validate] accepts and a 32-bit
    chain id, with lower bounds that are not negative, no conversion to
    [uint64] in [GetL1SignatureBody] changes a number: the ten numeric
    operands render the fields themselves, followed by the encoded memo. *)
Theorem validated_l1_operands (tx : Transfer.L2TransferTxInfo) (chainId : Z) :
  nonneg_minima ->
  Transfer.well_typed tx ->
  GoInt.is_uint 32 chainId ->
  Transfer.Validate tx = None ->
  Transfer.l1_operands tx chainId =
    [ getHex10FromUint64 (Transfer.Nonce tx);
      getHex10FromUint64 (Transfer.FromAccountIndex tx);
      getHex10FromUint64 (Transfer.FromRouteType tx);
      getHex10FromUint64 (Transfer.ApiKeyIndex tx);
      getHex10FromUint64 (Transfer.ToAccountIndex tx);
      getHex10FromUint64 (Transfer.ToRouteType tx);
      getHex10FromUint64 (Transfer.AssetIndex tx);
      getHex10FromUint64 (Transfer.Amount tx);
      getHex10FromUint64 (Transfer.USDCFee tx);
      getHex10FromUint64 chainId;
      Hex.EncodeToString (Vector.to_list (Transfer.Memo tx)) ].
Proof.
  intros (Hacc & Hasset & Hnonce) Hw Hc Hv.
  apply transfer_accepted_bounds in Hv.
  unfold transfer_valid, transfer_indices_ok, transfer_amount_ok,
    transfer_fee_ok in Hv.
  destruct Hw as (? & ? & ? & ? & ? & ? & ? & ? & ? & ?).
  unfold GoInt.is_uint, GoInt.is_int in *.
  unfold Transfer.l1_operands, Transfer.hexMemo.
  rewrite replace_0x_lower_hex by apply encode_lower_hex.
  rewrite !uint64_id by (unfold GoInt.is_uint; lia).
  reflexivity.
Qed.

End L1Body.

Section CrossType.
Context {consts : TxConstants} {field : Goldilocks} {sponge : @Poseidon2 field}.

(** X17: a transfer and a withdrawal never have the same preimage, whatever
    their fields and chain ids are, since one has 14 elements and the other
    10; so a digest that a transfer shares with a withdrawal is the digest
    of two different inputs of the sponge. *)
Theorem cross_type_preimages_distinct
  (tx : Transfer.L2TransferTxInfo) (wx : Withdraw.L2WithdrawTxInfo)
  (c c' : Z) (extra extra' : list Element) :
  Transfer.preimage tx c <> Withdraw.preimage wx c' /\
  (fst (Transfer.Hash tx c extra) = fst (Withdraw.Hash wx c' extra') ->
   exists l1 l2 : list Element,
     l1 <> l2 /\
     ToLittleEndianBytes (HashToQuinticExtension l1) =
       ToLittleEndianBytes (HashToQuinticExtension l2)).
Proof.
  assert (D : Transfer.preimage tx c <> Withdraw.preimage wx c').
  { intros E. apply (f_equal (@List.length Element)) in E. discriminate E. }
  split; [exact D|].
  intros E. exists (Transfer.preimage tx c), (Withdraw.preimage wx c').
  split; [exact D | exact E].
Qed.

End CrossType.

(** ** The further theorems at concrete transactions *)

Lemma sample_transfer_valid : @transfer_valid sample_constants sample_transfer.
Proof.
  unfold transfer_valid, transfer_indices_ok, transfer_routes_ok,
    transfer_amount_ok, transfer_fee_ok, defined_route. simpl. lia.
Defined.

Lemma sample_withdraw_valid : @withdraw_valid sample_constants sample_withdraw.
Proof.
  unfold withdraw_valid, withdraw_indices_ok, withdraw_amount_ok,
    defined_route. simpl. lia.
Defined.

Lemma sample_transfer_well_typed : Transfer.well_typed sample_transfer.
Proof. unfold Transfer.well_typed, GoInt.is_int, GoInt.is_uint. simpl. lia. Defined.

Lemma sample_withdraw_well_typed : Withdraw.well_typed sample_withdraw.
Proof. unfold Withdraw.well_typed, GoInt.is_int, GoInt.is_uint. simpl. lia. Defined.

Lemma sample_minima : @nonneg_minima sample_constants.
Proof. unfold nonneg_minima. simpl. lia. Defined.

Lemma sample_field_separating : @separating_field sample_field.
Proof.
  unfold separating_field, injective_below. simpl.
  split; [|split]; intros x y Hx Hy E.
  - exact E.
  - rewrite !Z.mod_small in E by lia. exact E.
  - rewrite !Z.mod_small in E by lia. exact E.
Defined.

Lemma transfer_validate_accepts_iff_sample :
  @Transfer.Validate sample_constants sample_transfer = None.
Proof.
  exact (proj2 (@transfer_validate_accepts_iff sample_constants sample_transfer)
           sample_transfer_valid).
Defined.

Lemma withdraw_validate_accepts_iff_sample :
  @Withdraw.Validate sample_constants sample_withdraw = None.
Proof.
  exact (proj2 (@withdraw_validate_accepts_iff sample_constants sample_withdraw)
           sample_withdraw_valid).
Defined.

Lemma transfer_index_errors_sample :
  @Transfer.Validate sample_constants
    (transfer_with_amount (transfer_with_to sample_transfer (2 ^ 48)) 0) =
    Some ErrToAccountIndexTooHigh.
Proof.
  apply (proj2 (proj1 (proj2 (proj2 (proj2 (proj2 (proj2
    (@transfer_index_errors sample_constants _)))))))).
  simpl. lia.
Defined.

Lemma transfer_route_amount_fee_errors_sample :
  @Transfer.Validate sample_constants (transfer_with_amount sample_transfer (-5)) =
    Some ErrTransferAmountTooLow.
Proof.
  apply (proj2 (proj1 (proj2
    (@transfer_route_amount_fee_errors sample_constants _)))).
  unfold transfer_indices_ok, transfer_routes_ok, defined_route. simpl. lia.
Defined.

Lemma transfer_nonce_expiry_errors_sample :
  @Transfer.Validate sample_constants (transfer_with_expiry sample_transfer (2 ^ 48)) =
    Some ErrExpiredAtInvalid.
Proof.
  apply (proj2 (proj2
    (@transfer_nonce_expiry_errors sample_constants _))).
  unfold transfer_indices_ok, transfer_routes_ok, transfer_amount_ok,
    transfer_fee_ok, defined_route. simpl. lia.
Defined.

Lemma withdraw_validate_errors_sample :
  @Withdraw.Validate sample_constants (withdraw_with_from sample_withdraw (-1)) =
    Some ErrFromAccountIndexTooLow.
Proof.
  apply (proj2 (proj1 (@withdraw_validate_errors sample_constants _))).
  simpl. lia.
Defined.

Lemma validate_errors_of_own_type_sample :
  ErrTransferAmountTooLow <> ErrWithdrawalAmountTooLow /\
  ErrTransferAmountTooLow <> ErrWithdrawalAmountTooHigh.
Proof.
  exact (proj1 (@validate_errors_of_own_type sample_constants)
           (transfer_with_amount sample_transfer 0) ErrTransferAmountTooLow
           eq_refl).
Defined.

Lemma validate_reads_numeric_fields_sample :
  @Transfer.Validate sample_constants
    (transfer_with_memo sample_transfer (Vector.const Byte.xff 32)) =
  @Transfer.Validate sample_constants sample_transfer.
Proof.
  exact (proj1 (@validate_reads_numeric_fields sample_constants) _ _ eq_refl).
Defined.

Lemma validated_transfer_preimage_sample :
  @Transfer.preimage sample_constants sample_field sample_transfer 304 =
    [304; 12; 4; 1000; 7; 3; 0; 2; 0; 1; 5; 1; 9; 0].
Proof.
  refine (proj1 (@validated_transfer_preimage sample_constants sample_field
                   sample_transfer 304 _ sample_transfer_well_typed eq_refl)).
  simpl. lia.
Defined.

Lemma validated_withdraw_preimage_sample :
  @Withdraw.preimage sample_constants sample_field sample_withdraw 304 =
    [304; 13; 4; 1000; 0; 3; 2; 1; 5; 1].
Proof.
  refine (proj1 (@validated_withdraw_preimage sample_constants sample_field
                   sample_withdraw 304 _ sample_withdraw_well_typed eq_refl)).
  simpl. lia.
Defined.

Lemma transfer_preimage_injective_sample :
  304 = 304 /\
  transfer_hashed_fields sample_transfer =
    transfer_hashed_fields
      (transfer_with_memo sample_transfer (Vector.const Byte.xff 32)).
Proof.
  apply (@transfer_preimage_injective sample_constants sample_field
           sample_transfer
           (transfer_with_memo sample_transfer (Vector.const Byte.xff 32))
           304 304 sample_minima sample_field_separating
           sample_transfer_well_typed sample_transfer_well_typed);
    try reflexivity; unfold GoInt.is_uint; lia.
Defined.

Lemma withdraw_preimage_injective_sample :
  304 = 304 /\
  withdraw_hashed_fields sample_withdraw = withdraw_hashed_fields sample_withdraw.
Proof.
  apply (@withdraw_preimage_injective sample_constants sample_field
           sample_withdraw sample_withdraw
           304 304 sample_minima sample_field_separating
           sample_withdraw_well_typed sample_withdraw_well_typed);
    try reflexivity; unfold GoInt.is_uint; lia.
Defined.

Lemma signed_limbs_injective_sample : -1 = -1.
Proof.
  apply (signed_limbs_injective (-1) (-1));
    try reflexivity; unfold GoInt.is_int; lia.
Defined.

Lemma hex_memo_injective_sample :
  Transfer.Memo sample_transfer =
    Transfer.Memo (transfer_with_expiry sample_transfer 5).
Proof.
  exact (proj2 hex_memo_injective sample_transfer
           (transfer_with_expiry sample_transfer 5) eq_refl).
Defined.

Lemma l1_body_reads_l1_fields_sample :
  @Transfer.GetL1SignatureBody sample_format sample_transfer 304 =
  @Transfer.GetL1SignatureBody sample_format
    (transfer_with_expiry sample_transfer 5) 304.
Proof.
  exact (proj1 (@l1_body_reads_l1_fields sample_format sample_recover
                  sample_transfer (transfer_with_expiry sample_transfer 5) 304
                  eq_refl)).
Defined.

Lemma validated_l1_operands_sample :
  nth_error (@Transfer.l1_operands sample_format sample_transfer 304) 7 =
    Some "0100000005"%string.
Proof.
  rewrite (@validated_l1_operands sample_constants sample_format
             sample_transfer 304 sample_minima sample_transfer_well_typed).
  - reflexivity.
  - unfold GoInt.is_uint. lia.
  - reflexivity.
Defined.

Lemma cross_type_preimages_distinct_sample :
  @Transfer.preimage sample_constants sample_field sample_transfer 304 <>
  @Withdraw.preimage sample_constants sample_field sample_withdraw 304.
Proof.
  exact (proj1 (@cross_type_preimages_distinct sample_constants sample_field
                  sample_sponge sample_transfer sample_withdraw 304 304 [] [])).
Defined.
